(** * Order-fulfilment coordination pipeline of the food-delivery platform

    A shallow embedding of the services that the coordination pipeline is
    made of, and the properties of the pipeline established on it:

    - the realtime gateway ([services/realtime/src/routes/internal.ts],
      [services/realtime/src/socket.ts]);
    - the order-ready consumer of the rider service
      ([services/rider/src/config/orderReady.consumer.ts], [model/Rider.ts]);
    - the payment producer and the Razorpay verification of the utils
      service ([config/payment.producer.ts], [config/verifyRazorpay.ts],
      [controllers/payment.ts]);
    - the order handlers of the restaurant service as given in
      [scalable_architecture_docs/03_Database_Evolution.md].

    Conventions.  A JavaScript value that may be [undefined] is an
    [option]; a computation that may throw returns [None] in the little
    effect monad [Eff].  [console.log] output is diagnostic only and is
    not part of any state below. *)

From Stdlib Require Import QArith Qabs.
From stdpp Require Import gmap strings list fin_maps.

Set Warnings "-register-all,-clear-no-such-hyp".

(** ** JSON values and the JavaScript operations the handlers use *)

Module Js.

(** The result of [JSON.parse], also the shape of [req.body] after
    [express.json()]. Object fields are kept in source order. *)
Inductive json : Type :=
| JNull
| JBool (b : bool)
| JNum (q : Q)
| JStr (s : string)
| JArr (items : list json)
| JObj (fields : list (string * json)).

(** A value or [undefined]. *)
Definition jsval : Type := option json.

Fixpoint assoc (k : string) (fields : list (string * json)) : jsval :=
  match fields with
  | [] => None
  | (k', v) :: rest => if String.eqb k k' then Some v else assoc k rest
  end.

(** [v.k] for a key [k] that is no built-in property ("type", "data",
    "event", ...): a TypeError on [null], the field on an object,
    [undefined] on any other value.  The outer option is the throw. *)
Definition prop (v : json) (k : string) : option jsval :=
  match v with
  | JNull => None
  | JObj fields => Some (assoc k fields)
  | _ => Some None
  end.

(** [const { a, b, c } = v]: throws on [undefined] and on [null]. *)
Definition destructure3 (v : jsval) (a b c : string)
  : option (jsval * jsval * jsval) :=
  match v with
  | None => None
  | Some o =>
      match prop o a, prop o b, prop o c with
      | Some x, Some y, Some z => Some (x, y, z)
      | _, _, _ => None
      end
  end.

(** JavaScript truthiness: [!v] is [negb (truthy v)]. *)
Definition truthy (v : jsval) : bool :=
  match v with
  | None => false
  | Some JNull => false
  | Some (JBool b) => b
  | Some (JNum q) => negb (Qeq_bool q 0)
  | Some (JStr s) => negb (String.eqb s "")
  | Some (JArr _) => true
  | Some (JObj _) => true
  end.

(** [v !== "lit"] against a string literal. *)
Definition strict_neq_lit (v : jsval) (lit : string) : bool :=
  match v with
  | Some (JStr s) => negb (String.eqb s lit)
  | _ => true
  end.

(** [a !== b] for two values that are strings or [undefined]
    (a request header against [process.env.X]). *)
Definition strict_neq_str (a b : option string) : bool :=
  match a, b with
  | None, None => false
  | Some x, Some y => negb (String.eqb x y)
  | _, _ => true
  end.

(** [v ?? d]. *)
Definition nullish_or (v : jsval) (d : json) : json :=
  match v with
  | None => d
  | Some JNull => d
  | Some x => x
  end.

(** [`${x}`] for an environment variable: the text "undefined" when unset. *)
Definition tmpl_env (x : option string) : string :=
  match x with
  | Some s => s
  | None => "undefined"
  end.

(** An object literal [{ k1: v1, ... }] as it is serialised: keys whose
    value is [undefined] are left out. *)
Definition obj_lit (fields : list (string * jsval)) : json :=
  JObj (omap (fun kv => match snd kv with
                        | Some v => Some (fst kv, v)
                        | None => None
                        end) fields).

End Js.
Import Js.

(** An HTTP response: [res.status(n).json(b)]; [res.json(b)] alone is 200. *)
Record Response : Type := mkResponse {
  status_code : nat;
  body : json
}.

Definition message_body (m : string) : json := JObj [("message", JStr m)].

(** ** The broker channel *)

Module Amqp.

(** A message on a queue.  The content buffer is identified with what
    [JSON.parse(msg.content.toString())] makes of it: [None] when the
    bytes are no JSON text and the parse throws;
    [Buffer.from(JSON.stringify(v))] is [Some v]. *)
Record Message : Type := mkMessage {
  parsed : option json
}.

(** One [channel.sendToQueue(queue, content, { persistent })]. *)
Record Sent : Type := mkSent {
  queue : string;
  content : Message;
  persistent : bool
}.

(** The channel, as the list of what was handed to the broker, oldest first. *)
Definition Channel : Type := list Sent.

Definition sendToQueue (q : string) (c : Message) (p : bool) (ch : Channel) : Channel :=
  ch ++ [mkSent q c p].

End Amqp.
Import Amqp.

(** ** The realtime gateway *)

Module Realtime.

(** The socket.io server held in [io] ([socket.ts]).  [rooms] is the room
    registry of the in-memory adapter, [sockets] the connected sessions,
    and [outbox] every packet written to a connection so far, oldest
    first: (session, event, payload). *)
Record Server : Type := mkServer {
  sockets : gset string;
  rooms : gmap string (gset string);
  outbox : list (string * json * json)
}.

Definition join (sid room : string) (io : Server) : Server :=
  mkServer (sockets io)
           (<[room := {[sid]} ∪ default ∅ (rooms io !! room)]> (rooms io))
           (outbox io).

(** The identity carried by a verified token ([decoded.user]). *)
Record User : Type := mkUser {
  _id : string;
  restaurantId : option string
}.

(** [io.on("connection", ...)] for a session whose handshake passed the
    middleware: the session is registered (socket.io also enrols it in the
    room named by its own id), joins [user:<id>] and, for a restaurant
    identity, [restaurant:<id>]. *)
Definition on_connection (sid : string) (user : User) (io : Server) : Server :=
  let io0 := mkServer ({[sid]} ∪ sockets io) (rooms io) (outbox io) in
  let io1 := join sid sid io0 in
  let io2 := join sid ("user:" +:+ _id user) io1 in
  match restaurantId user with
  | Some rid => if String.eqb rid "" then io2 else join sid ("restaurant:" +:+ rid) io2
  | None => io2
  end.

(** [io.to(room)]: an array names several rooms, any other value one. *)
Definition room_set (room : json) : list json :=
  match room with
  | JArr rs => rs
  | r => [r]
  end.

Definition members (io : Server) (r : json) : gset string :=
  match r with
  | JStr name => default ∅ (rooms io !! name)
  | _ => ∅
  end.

(** The sessions a broadcast reaches: the union of the named rooms, each
    session once; with no room named, every connected session. *)
Definition targets (io : Server) (room : json) : gset string :=
  match room_set room with
  | [] => sockets io
  | rs => ⋃ (members io <$> rs)
  end.

(** [io.to(room).emit(event, payload)]. *)
Definition to_emit (room event payload : json) (io : Server) : Server :=
  mkServer (sockets io) (rooms io)
           (outbox io ++ ((fun sid => (sid, event, payload)) <$> elements (targets io room))).

(** The event names socket.io keeps for itself: [emit] throws
    ["<name>" is a reserved event name] when given one of them. *)
Definition reserved_events : list string :=
  ["connect"; "connect_error"; "disconnect"; "disconnecting";
   "newListener"; "removeListener"].

Definition reserved_event (ev : json) : bool :=
  match ev with
  | JStr name => bool_decide (name ∈ reserved_events)
  | _ => false
  end.

(** A request to [POST /api/v1/internal/emit]. *)
Record EmitRequest : Type := mkEmitRequest {
  x_internal_key : option string;
  req_body : json
}.

(** [router.post("/emit", ...)] of [routes/internal.ts].  [key] is
    [process.env.INTERNAL_SERVICE_KEY].  [getIO()] does not throw:
    [index.ts] calls [initSocket] before the server listens.  A throw,
    while destructuring the body or by [emit] on a reserved event name,
    ends in the framework's 500 with nothing sent. *)
Definition emit_route (key : option string) (req : EmitRequest) (io : Server)
  : Server * Response :=
  if strict_neq_str (x_internal_key req) key then
    (io, mkResponse 403 (message_body "Forbidden"))
  else
    match destructure3 (Some (req_body req)) "event" "room" "payload" with
    | None => (io, mkResponse 500 JNull)
    | Some (event, room, payload) =>
        if negb (truthy event) || negb (truthy room) then
          (io, mkResponse 400 (message_body "event and room are required"))
        else
          match event, room with
          | Some ev, Some rm =>
              if reserved_event ev then (io, mkResponse 500 JNull)
              else
                (to_emit rm ev (nullish_or payload (JObj [])) io,
                 mkResponse 200 (JObj [("sucess", JBool true)]))
          | _, _ =>
              (* not reached: [undefined] is falsy *)
              (io, mkResponse 400 (message_body "event and room are required"))
          end
    end.

(** The outcome of the handshake middleware. *)
Inductive Handshake : Type :=
| Accepted (user : json)   (* socket.data.user = decoded.user; next() *)
| Unauthorized.            (* next(new Error("Unauthorized")) *)

Section Middleware.

(** [jwt.verify(token, process.env.JWT_SEC)]: the decoded payload, or
    [None] when it throws (bad signature, expired, malformed). *)
Variable jwt_verify : string -> option json.

(** [socket.handshake.auth?.token]. *)
Definition handshake_token (auth : jsval) : jsval :=
  match auth with
  | None => None
  | Some JNull => None
  | Some a =>
      match prop a "token" with
      | Some t => t
      | None => None
      end
  end.

(** The [io.use] middleware of [initSocket].  A token that is not a
    string makes [jwt.verify] throw, which the [catch] turns into
    [Unauthorized] like every other throw. *)
Definition authenticate (auth : jsval) : Handshake :=
  let token := handshake_token auth in
  if negb (truthy token) then Unauthorized
  else
    match token with
    | Some (JStr t) =>
        match jwt_verify t with
        | None => Unauthorized
        | Some decoded =>
            match prop decoded "user" with
            | None => Unauthorized
            | Some user =>
                if negb (truthy (Some decoded)) || negb (truthy user) then Unauthorized
                else
                  match user with
                  | Some u => Accepted u
                  | None => Unauthorized
                  end
            end
        end
    | _ => Unauthorized
    end.

End Middleware.

End Realtime.

(** ** The rider service: courier model and order-ready consumer *)

Module Rider.

(** GeoJSON position [longitude, latitude]. *)
Definition Point : Type := (Q * Q)%type.

(** [IRider] of [model/Rider.ts] (the misspelt [isAvailble] is the
    field's name in the schema and in every query). *)
Record IRider : Type := mkRider {
  userId : string;
  picture : string;
  phoneNumber : string;
  aadharNumber : string;
  drivingLicenseNumber : string;
  isVerified : bool;
  location : Point;
  isAvailble : bool
}.

(** [process.env] of the rider service. *)
Record Env : Type := mkEnv {
  ORDER_READY_QUEUE : option string;
  REALTIME_SERVICE : option string;
  INTERNAL_SERVICE_KEY : option string
}.

(** What the consumer does to the outside, in program order. *)
Inductive effect : Type :=
| Find (geometry : jsval)
| Post (url : string) (data : json) (key : option string) (resolved : bool)
| Ack
| Nack (requeue : bool).

(** Effects performed so far, and the value unless an exception is in flight. *)
Definition Eff (A : Type) : Type := (list effect * option A)%type.

#[export] Instance Eff_ret : MRet Eff := fun A a => ([], Some a).
#[export] Instance Eff_bind : MBind Eff := fun A B k m =>
  match m with
  | (t, Some a) => let '(t', r) := k a in (t ++ t', r)
  | (t, None) => (t, None)
  end.

Definition tell (e : effect) : Eff unit := ([e], Some tt).
Definition lift {A} (o : option A) : Eff A := ([], o).

(** [try { m } catch (error) { console.log(...) }]. *)
Definition try_catch (m : Eff unit) : Eff unit := (fst m, Some tt).

(** [for (const x of xs) { f x }]. *)
Fixpoint for_of {A} (xs : list A) (f : A -> Eff unit) : Eff unit :=
  match xs with
  | [] => mret tt
  | x :: rest => f x ;; for_of rest f
  end.

Section Consumer.

(** Metres between two positions as the [2dsphere] index measures them. *)
Variable distance : Point -> Point -> Q.

(** What mongoose and the server make of the [$geometry] given to
    [$near]: the point queried, or [None] when the query throws (the
    value does not cast to a point the server accepts). *)
Variable geo_point : jsval -> option Point.

(** Whether a POST to the gateway resolves ([true]) or rejects. *)
Variable axios_post : string -> json -> option string -> bool.

Variable env : Env.

(** The filter [{ isAvailble: true, isVerified: true,
    location: { $near: { $geometry, $maxDistance: 500 } } }]. *)
Definition eligible (L : Point) (r : IRider) : bool :=
  isAvailble r && isVerified r && Qle_bool (distance (location r) L) (500 # 1).

Fixpoint insert_near (L : Point) (r : IRider) (rs : list IRider) : list IRider :=
  match rs with
  | [] => [r]
  | x :: rest =>
      if Qle_bool (distance (location r) L) (distance (location x) L)
      then r :: rs
      else x :: insert_near L r rest
  end.

(** [$near] returns the matches nearest first. *)
Definition near (db : list IRider) (L : Point) : list IRider :=
  foldr (insert_near L) [] (List.filter (eligible L) db).

(** [await Rider.find({...})] on the riders collection [db]. *)
Definition Rider_find (db : list IRider) (geometry : jsval) : Eff (list IRider) :=
  tell (Find geometry) ;; lift (near db <$> geo_point geometry).

Definition emit_url : string :=
  tmpl_env (REALTIME_SERVICE env) +:+ "/api/v1/internal/emit".

Definition offer (orderId restaurantId : jsval) (rider : IRider) : json :=
  obj_lit [("event", Some (JStr "order:available"));
           ("room", Some (JStr ("user:" +:+ userId rider)));
           ("payload", Some (obj_lit [("orderId", orderId);
                                      ("restaurantId", restaurantId)]))].

(** [await axios.post(url, data, { headers })]: rejects when the gateway
    does not answer 2xx. *)
Definition post (url : string) (data : json) (key : option string) : Eff unit :=
  let ok := axios_post url data key in
  ([Post url data key ok], if ok then Some tt else None).

(** The gateway calls of one fan-out over [riders], in order. *)
Definition offers (orderId restaurantId : jsval) (riders : list IRider) : list effect :=
  (fun rider =>
     let data := offer orderId restaurantId rider in
     Post emit_url data (INTERNAL_SERVICE_KEY env)
          (axios_post emit_url data (INTERNAL_SERVICE_KEY env))) <$> riders.

(** The callback given to [channel.consume] in [startOrderReadyConsumer]. *)
Definition on_message (db : list IRider) (msg : option Message) : Eff unit :=
  match msg with
  | None => mret tt
  | Some m =>
      try_catch (
        event ← lift (parsed m);
        ty ← lift (prop event "type");
        if strict_neq_lit ty "ORDER_READY_FOR_RIDER" then
          tell Ack
        else
          data ← lift (prop event "data");
          '(orderId, restaurantId, location) ←
            lift (destructure3 data "orderId" "restaurantId" "location");
          riders ← Rider_find db location;
          if (length riders =? 0)%nat then
            tell Ack
          else
            for_of riders (fun rider =>
              try_catch (post emit_url (offer orderId restaurantId rider)
                              (INTERNAL_SERVICE_KEY env))) ;;
            tell Ack)
  end.

(** The message carries a JSON value [event] with [event.type === ty]
    whose [event.data] destructures into the three fields. *)
Definition carries (m : Message) (ty : jsval) (orderId restaurantId location : jsval) : Prop :=
  exists event data,
    parsed m = Some event /\
    prop event "type" = Some ty /\
    prop event "data" = Some data /\
    destructure3 data "orderId" "restaurantId" "location"
      = Some (orderId, restaurantId, location).

(** A request to push [order:available] into the room of user [uid]. *)
Definition pushes_offer_to (uid : string) (e : effect) : Prop :=
  match e with
  | Post _ data _ _ =>
      prop data "event" = Some (Some (JStr "order:available")) /\
      prop data "room" = Some (Some (JStr ("user:" +:+ uid)))
  | _ => False
  end.

End Consumer.

End Rider.

(** ** The utils service: payment producer and Razorpay verification *)

Module Utils.

Inductive Provider : Type := razorpay | stripe.

Definition provider_name (p : Provider) : string :=
  match p with
  | razorpay => "razorpay"
  | stripe => "stripe"
  end.

(** The argument of [publishPaymentSuccess]. *)
Record Payload : Type := mkPayload {
  orderId : string;
  paymentId : string;
  provider : Provider
}.

Definition payload_json (p : Payload) : json :=
  JObj [("orderId", JStr (orderId p));
        ("paymentId", JStr (paymentId p));
        ("provider", JStr (provider_name (provider p)))].

(** [process.env] of the utils service; both are read with [!]. *)
Record Env : Type := mkEnv {
  PAYMENT_QUEUE : string;
  RAZORPAY_KEY_SECRET : string
}.

(** The object given to [JSON.stringify] in [publishPaymentSuccess]. *)
Definition payment_success_envelope (p : Payload) : json :=
  JObj [("type", JStr "PAYMENT_SUCCESS"); ("data", payload_json p)].

(** [publishPaymentSuccess] of [config/payment.producer.ts]. *)
Definition publishPaymentSuccess (env : Env) (p : Payload) (ch : Channel) : Channel :=
  sendToQueue (PAYMENT_QUEUE env)
              (mkMessage (Some (payment_success_envelope p)))
              true ch.

(** The body of [POST /verify]. *)
Record VerifyBody : Type := mkVerifyBody {
  razorpay_order_id : string;
  razorpay_payment_id : string;
  razorpay_signature : string;
  body_orderId : string
}.

Section Razorpay.

(** [crypto.createHmac("sha256", key).update(data).digest("hex")]. *)
Variable hmac_sha256_hex : string -> string -> string.

Variable env : Env.

(** [verifyRazorpaySignature] of [config/verifyRazorpay.ts]. *)
Definition verifyRazorpaySignature (orderId paymentId signature : string) : bool :=
  let body := orderId +:+ "|" +:+ paymentId in
  let expectedSignature := hmac_sha256_hex (RAZORPAY_KEY_SECRET env) body in
  String.eqb expectedSignature signature.

(** [verifyRazorpayPayment] of [controllers/payment.ts]. *)
Definition verifyRazorpayPayment (b : VerifyBody) (ch : Channel) : Channel * Response :=
  let isValid := verifyRazorpaySignature (razorpay_order_id b)
                                         (razorpay_payment_id b)
                                         (razorpay_signature b) in
  if negb isValid then
    (ch, mkResponse 400 (message_body "Payment verification failed"))
  else
    (publishPaymentSuccess env
       (mkPayload (body_orderId b) (razorpay_payment_id b) razorpay) ch,
     mkResponse 200 (message_body "Payment verified successfully")).

End Razorpay.

(** What [verifyStripe] reads of a Checkout Session, and the payment
    status Stripe keeps in it ("paid", "unpaid", ...). *)
Record Session : Type := mkSession {
  payment_status : string;
  metadata : option (gmap string string)
}.

Section Stripe.

(** [await stripe.checkout.sessions.retrieve(sessionId)]: [None] when the
    call throws, [Some None] for a [null] result. *)
Variable stripe_retrieve : string -> option (option Session).

Variable env : Env.

(** [session.metadata?.orderId]. *)
Definition session_orderId (session : Session) : option string :=
  metadata session ≫= (fun md => md !! "orderId").

(** [verifyStripe] of [controllers/payment.ts]. *)
Definition verifyStripe (sessionId : string) (ch : Channel) : Channel * Response :=
  match stripe_retrieve sessionId with
  | None => (ch, mkResponse 500 (message_body "stripe payment failed"))
  | Some None => (ch, mkResponse 400 (message_body "Payment verifcation failed"))
  | Some (Some session) =>
      match session_orderId session with
      | Some orderId =>
          if String.eqb orderId "" then
            (ch, mkResponse 400 (message_body "orderid not found in stripe session"))
          else
            (publishPaymentSuccess env (mkPayload orderId sessionId stripe) ch,
             mkResponse 200 (message_body "payment verified successfully"))
      | None =>
          (ch, mkResponse 400 (message_body "orderid not found in stripe session"))
      end
  end.

End Stripe.

(** A request to one of the two verification endpoints. *)
Inductive Verification : Type :=
| ViaRazorpay (b : VerifyBody)
| ViaStripe (sessionId : string).

Section Verifications.

Variable hmac_sha256_hex : string -> string -> string.
Variable stripe_retrieve : string -> option (option Session).
Variable env : Env.

Definition verify (v : Verification) (ch : Channel) : Channel * Response :=
  match v with
  | ViaRazorpay b => verifyRazorpayPayment hmac_sha256_hex env b ch
  | ViaStripe sessionId => verifyStripe stripe_retrieve env sessionId ch
  end.

(** The requests served one after the other on the same channel. *)
Definition verify_all (vs : list Verification) (ch : Channel) : Channel :=
  foldl (fun ch v => fst (verify v ch)) ch vs.

(** The request [v] vouches for a payment [paymentId] of order [orderId]
    through the provider named [prov]: a Razorpay body whose signature is
    the keyed digest of its order and payment ids, or a Stripe session
    id whose session exists and names the order. *)
Definition vouches (v : Verification) (orderId paymentId prov : string) : Prop :=
  match v with
  | ViaRazorpay b =>
      prov = "razorpay" /\ body_orderId b = orderId /\
      razorpay_payment_id b = paymentId /\
      razorpay_signature b =
        hmac_sha256_hex (RAZORPAY_KEY_SECRET env)
                        (razorpay_order_id b +:+ "|" +:+ razorpay_payment_id b)
  | ViaStripe sessionId =>
      prov = "stripe" /\ sessionId = paymentId /\ orderId <> "" /\
      exists session,
        stripe_retrieve sessionId = Some (Some session) /\
        session_orderId session = Some orderId
  end.

End Verifications.

End Utils.

(** ** The restaurant service: order store and its handlers
    (code of [scalable_architecture_docs/03_Database_Evolution.md]) *)

Module Restaurant.

Inductive PaymentStatus : Type := pending | paid | failed.

(** The order document. [None] is a field that is [null] or not set. *)
Record Order : Type := mkOrder {
  userId : string;
  items : list json;
  paymentStatus : PaymentStatus;
  expiresAt : option Z;
  riderId : option string;
  riderName : option string;
  riderPhone : option string;
  status : string
}.

(** The orders collection, by [_id]. *)
Abbreviation Orders := (gmap string Order).

(** A string field of a request body: not there, [null], or a string. *)
Inductive field : Type :=
| Absent
| Null
| Str (s : string).

(** Writing a body field in an update: an [undefined] key is dropped from
    the update, [null] and strings are stored. *)
Definition set_field (f : field) (old : option string) : option string :=
  match f with
  | Absent => old
  | Null => None
  | Str s => Some s
  end.

(** [Order.findOneAndUpdate({ _id: id, ...filter }, update, { new: true })]:
    one indivisible operation of the store; yields the updated document,
    or [null] when no document matches. *)
Definition findOneAndUpdate (id : string) (filter : Order -> bool)
    (update : Order -> Order) (db : Orders) : Orders * option Order :=
  match db !! id with
  | Some o =>
      if filter o then (<[id := update o]> db, Some (update o)) else (db, None)
  | None => (db, None)
  end.

(** The filter [riderId: null]. *)
Definition riderId_null (o : Order) : bool :=
  match riderId o with
  | None => true
  | Some _ => false
  end.

(** The body of an assignment request. *)
Record AssignBody : Type := mkAssignBody {
  b_orderId : string;
  b_riderId : field;
  b_riderName : field;
  b_riderPhone : field
}.

(** The update [{ riderId, riderName, riderPhone, status: "rider_assigned" }]. *)
Definition assign_update (b : AssignBody) (o : Order) : Order :=
  mkOrder (userId o) (items o) (paymentStatus o) (expiresAt o)
          (set_field (b_riderId b) (riderId o))
          (set_field (b_riderName b) (riderName o))
          (set_field (b_riderPhone b) (riderPhone o))
          "rider_assigned".

(** What a handler answers. *)
Inductive Reply : Type :=
| SuccessOrder (order : Order)          (* res.json({ success: true, order }) *)
| Success                               (* res.json({ success: true }) *)
| Message (code : nat) (message : string) (* res.status(code).json({ message }) *)
| Error (code : nat) (error : string)     (* res.status(code).json({ error }) *)
| Thrown.                                 (* the handler throws: a 500, no body of its own *)

Record AssignRequest : Type := mkAssignRequest {
  x_internal_key : option string;
  assign_body : AssignBody
}.

(** [assignRiderToOrder], the internal endpoint [PUT /assign/rider].
    [key] is [process.env.INTERNAL_SERVICE_KEY]. *)
Definition assignRiderToOrder (key : option string) (req : AssignRequest)
    (db : Orders) : Orders * Reply :=
  if strict_neq_str (x_internal_key req) key then
    (db, Message 403 "Forbidden")
  else
    let b := assign_body req in
    match findOneAndUpdate (b_orderId b) riderId_null (assign_update b) db with
    | (db', Some order) => (db', SuccessOrder order)
    | (db', None) => (db', Message 400 "Order already taken")
    end.


(** Serving accept attempts one after the other, as the store serialises
    them; the replies come back in the same order. *)
Fixpoint serve (key : option string) (reqs : list AssignRequest) (db : Orders)
  : Orders * list Reply :=
  match reqs with
  | [] => (db, [])
  | r :: rest =>
      let '(db1, reply) := assignRiderToOrder key r db in
      let '(db2, replies) := serve key rest db1 in
      (db2, reply :: replies)
  end.

(** The answer to an accept that lost. *)
Definition conflict : Reply := Message 400 "Order already taken".

(** An accept attempt on order [oid]: a request of a service that holds
    the internal key, naming the order and the rider who accepts. *)
Definition accept_attempt (key : option string) (oid : string) (req : AssignRequest) : Prop :=
  x_internal_key req = key /\
  b_orderId (assign_body req) = oid /\
  exists rider, b_riderId (assign_body req) = Str rider.

(** The update [{ paymentStatus: "paid", $unset: { expiresAt: 1 } }]. *)
Definition paid_update (o : Order) : Order :=
  mkOrder (userId o) (items o) paid None
          (riderId o) (riderName o) (riderPhone o) (status o).

(** What [POST /api/payment/success] does: the store after it and the reply. *)
Record Settled : Type := mkSettled {
  orders : Orders;
  reply : Reply
}.

Section Settlement.

(** Whether a string casts to the [ObjectId] of the order schema's [_id];
    [findByIdAndUpdate] throws a CastError on one that does not. *)
Variable casts_to_ObjectId : string -> bool.

(** [POST /api/payment/success]:
    [Order.findByIdAndUpdate(req.body.orderId, ...)] then the reply. *)
Definition payment_success (orderId : string) (db : Orders) : Settled :=
  if casts_to_ObjectId orderId then
    let '(db', _) := findOneAndUpdate orderId (fun _ => true) paid_update db in
    mkSettled db' Success
  else mkSettled db Thrown.

(** The same settlement request processed [n] times in a row. *)
Fixpoint replay (n : nat) (orderId : string) (db : Orders) : Orders :=
  match n with
  | O => db
  | S k => replay k orderId (orders (payment_success orderId db))
  end.

End Settlement.

(** *** The handler before the atomic update ("The Naive Approach") *)

(** [if (order.riderId)] on the document read. *)
Definition has_rider (o : Order) : bool :=
  match riderId o with
  | Some r => negb (String.eqb r "")
  | None => false
  end.

(** [order.riderId = riderId] on a document: [undefined] and [null] unset it. *)
Definition assigned_value (f : field) : option string :=
  match f with
  | Str s => Some s
  | _ => None
  end.

Definition with_riderId (r : option string) (o : Order) : Order :=
  mkOrder (userId o) (items o) (paymentStatus o) (expiresAt o)
          r (riderName o) (riderPhone o) (status o).

(** First half, up to the first [await]: [Order.findById(orderId)]. *)
Definition naive_read (b : AssignBody) (db : Orders) : option Order :=
  db !! b_orderId b.

(** Second half, on the document [order] read before: the check, then
    [order.riderId = riderId; await order.save()], which writes the
    changed path of that document (a document deleted in between is
    not covered: nothing is written then). *)
Definition naive_finish (b : AssignBody) (order : Order) (db : Orders) : Orders * Reply :=
  if has_rider order then (db, Error 400 "Order already assigned")
  else (alter (with_riderId (assigned_value (b_riderId b))) (b_orderId b) db, Success).

(** Two requests one after the other. *)
Definition naive_sequential (a b : AssignBody) (db : Orders)
  : option (Orders * Reply * Reply) :=
  oa ← naive_read a db;
  let '(db1, ra) := naive_finish a oa db in
  ob ← naive_read b db1;
  let '(db2, rb) := naive_finish b ob db1 in
  Some (db2, ra, rb).

(** The schedule of the document's race table: both read, then both write. *)
Definition naive_interleaved (a b : AssignBody) (db : Orders)
  : option (Orders * Reply * Reply) :=
  oa ← naive_read a db;
  ob ← naive_read b db;
  let '(db1, ra) := naive_finish a oa db in
  let '(db2, rb) := naive_finish b ob db1 in
  Some (db2, ra, rb).

(** *** The rider service's [acceptOrder], caller of the internal endpoint *)

(** [req.user] of the rider service. *)
Record RiderUser : Type := mkRiderUser {
  rider_id : string;
  rider_name : string;
  rider_phoneNumber : string
}.

Inductive AcceptReply : Type :=
| OrderAccepted (order : Order)   (* res.json({ message: "Order accepted", order }) *)
| AcceptFailed.                   (* res.status(400).json({ message: "Failed to accept order" }) *)

(** [acceptOrder]: the PUT to [/api/order/assign/rider] with the rider
    service's key [rider_key]; axios throws on every answer that is not
    2xx, and the [catch] answers 400. [restaurant_key] is the key the
    restaurant service checks against. *)
Definition acceptOrder (rider_key restaurant_key : option string)
    (orderId : string) (rider : RiderUser) (db : Orders) : Orders * AcceptReply :=
  let req := mkAssignRequest rider_key
               (mkAssignBody orderId (Str (rider_id rider)) (Str (rider_name rider))
                             (Str (rider_phoneNumber rider))) in
  match assignRiderToOrder restaurant_key req db with
  | (db', SuccessOrder order) => (db', OrderAccepted order)
  | (db', _) => (db', AcceptFailed)
  end.

(** *** Order creation and the TTL index on [expiresAt] *)

(** [Order.create({ userId, items, paymentStatus: "pending",
    expiresAt: new Date(Date.now() + 15 * 60 * 1000) })] at time [now]
    (milliseconds).  [id] is the fresh [_id]; [initial_status] stands for
    the schema default of [status], which the document does not show. *)
Definition create_order (id initial_status user : string) (cart : list json)
    (now : Z) (db : Orders) : Orders :=
  <[id := mkOrder user cart pending (Some (now + 15 * 60 * 1000)%Z)
                  None None None initial_status]> db.

(** One pass of the TTL thread at time [now] ("How TTL Index Works"):
    the documents with [expiresAt < now] are deleted. *)
Definition ttl_expired (now : Z) (o : Order) : bool :=
  match expiresAt o with
  | Some t => (t <? now)%Z
  | None => false
  end.

Definition ttl_sweep (now : Z) (db : Orders) : Orders :=
  filter (fun kv => ttl_expired now (snd kv) = false) db.

(** *** The restaurant's publisher ([order.publisher.ts] in the document) *)

(** [publishEvent(type, data)]; [now] is [new Date().toISOString()]. *)
Definition publishEvent (now : string) (type : string) (data : json) (ch : Channel) : Channel :=
  sendToQueue "order_ready_queue"
              (mkMessage (Some (JObj [("type", JStr type);
                                      ("data", data);
                                      ("timestamp", JStr now)])))
              true ch.

(** The data published when the restaurant marks an order ready. *)
Definition order_ready_data (orderId restaurantId : string) (location : json) : json :=
  JObj [("orderId", JStr orderId);
        ("restaurantId", JStr restaurantId);
        ("location", location)].

End Restaurant.

(** ** Concrete data for the examples *)

Module Samples.

(** *** Gateway *)

Definition internal_key : option string := Some "internal-secret".

(** One session [s1] of user [u1], owner of restaurant [r9]. *)
Definition io_one : Realtime.Server :=
  Realtime.on_connection "s1" (Realtime.mkUser "u1" (Some "r9"))
    (Realtime.mkServer ∅ ∅ []).

Definition emit_body (room : string) : json :=
  JObj [("event", JStr "order:available");
        ("room", JStr room);
        ("payload", JObj [("orderId", JStr "o1"); ("restaurantId", JStr "r9")])].

Definition emit_to (room : string) : Realtime.EmitRequest :=
  Realtime.mkEmitRequest internal_key (emit_body room).


(** *** Riders *)

(** A stand-in for the geodesic distance: metres along the axes, at
    111320 m per degree. *)
Definition planar_metres (a b : Rider.Point) : Q :=
  (111320 # 1) * (Qabs (fst a - fst b) + Qabs (snd a - snd b)).

Definition gateway_up (url : string) (data : json) (key : option string) : bool := true.
Definition gateway_down (url : string) (data : json) (key : option string) : bool := false.

Definition rider_env : Rider.Env :=
  Rider.mkEnv (Some "order_ready_queue") (Some "http://realtime:5004") internal_key.

Definition pickup : Rider.Point := (775946 # 10000, 129716 # 10000).

(** A stand-in for the driver's reading of [$geometry], used on GeoJSON
    points with two numbers (which the driver accepts as they are): it
    reads such a point and refuses every other value. *)
Definition geojson_point (v : jsval) : option Rider.Point :=
  match v with
  | Some (JObj fields) =>
      match assoc "type" fields, assoc "coordinates" fields with
      | Some (JStr t), Some (JArr [JNum lng; JNum lat]) =>
          if String.eqb t "Point" then Some (lng, lat) else None
      | _, _ => None
      end
  | _ => None
  end.

Definition pickup_json : json :=
  JObj [("type", JStr "Point");
        ("coordinates", JArr [JNum (775946 # 10000); JNum (129716 # 10000)])].

Definition rider_at (uid : string) (verified available : bool) (lat : Q) : Rider.IRider :=
  Rider.mkRider uid "pic.png" "9000000000" "1234-5678-9012" "DL-01" verified
                (775946 # 10000, lat) available.

(** about 111 m, 223 m and 445 m from the pickup point *)
Definition rider_a : Rider.IRider := rider_at "a" true true (129726 # 10000).
Definition rider_b : Rider.IRider := rider_at "b" true true (129736 # 10000).
Definition rider_c : Rider.IRider := rider_at "c" true true (129676 # 10000).
(** about 1.1 km and 2.2 km away *)
Definition rider_d : Rider.IRider := rider_at "d" true true (129816 # 10000).
Definition rider_e : Rider.IRider := rider_at "e" true true (129516 # 10000).
(** at the pickup point, but not verified / not available *)
Definition rider_f : Rider.IRider := rider_at "f" false true (129716 # 10000).
Definition rider_g : Rider.IRider := rider_at "g" true false (129716 # 10000).

(** Three riders within the radius and two outside. *)
Definition five_riders : list Rider.IRider :=
  [rider_a; rider_d; rider_b; rider_e; rider_c].

Definition offer_url : string := "http://realtime:5004/api/v1/internal/emit".

Definition order_ready (tag : string) : Message :=
  mkMessage (Some (JObj [("type", JStr tag);
                         ("data", JObj [("orderId", JStr "o1");
                                        ("restaurantId", JStr "r9");
                                        ("location", pickup_json)])])).

(** The envelope as the specification words it. *)
Definition order_ready_for_pickup : Message :=
  mkMessage (Some (JObj [("type", JStr "ORDER_READY_FOR_PICKUP");
                         ("data", JObj [("orderId", JStr "o1");
                                        ("pickupLocation", pickup_json)]);
                         ("timestamp", JStr "2025-01-01T10:00:00.000Z")])).

(** *** Payments *)

Definition utils_env : Utils.Env := Utils.mkEnv "payment_queue" "rzp-secret".

(** A stand-in for the keyed digest. *)
Definition toy_hmac (key data : string) : string := key +:+ "/" +:+ data.

Definition verify_body (signature : string) : Utils.VerifyBody :=
  Utils.mkVerifyBody "order_R1" "pay_P1" signature "o1".

Definition payment_payload : Utils.Payload := Utils.mkPayload "o1" "pay_P1" Utils.razorpay.

(** *** Orders *)

(** The ObjectId of the documentation's examples. *)
Definition order_id : string := "507f1f77bcf86cd799439011".

Definition hex_digit (c : Ascii.ascii) : bool :=
  let n := Ascii.nat_of_ascii c in
  ((48 <=? n) && (n <=? 57) || (97 <=? n) && (n <=? 102) || (65 <=? n) && (n <=? 70))%nat.

(** A stand-in for the ObjectId cast: 24 hexadecimal digits. *)
Definition hex24 (id : string) : bool :=
  (String.length id =? 24)%nat && forallb hex_digit (String.list_ascii_of_string id).

Definition order_with (ps : Restaurant.PaymentStatus) (expires : option Z)
    (st : string) : Restaurant.Order :=
  Restaurant.mkOrder "u7" [] ps expires None None None st.

Definition ready_order : Restaurant.Order :=
  order_with Restaurant.paid None "ready_for_rider".
Definition pending_order : Restaurant.Order :=
  order_with Restaurant.pending (Some 1735725600000%Z) "placed".
Definition failed_order : Restaurant.Order :=
  order_with Restaurant.failed (Some 1735725600000%Z) "placed".

Definition accept_by (rider name : string) : Restaurant.AssignRequest :=
  Restaurant.mkAssignRequest internal_key
    (Restaurant.mkAssignBody "o1" (Restaurant.Str rider) (Restaurant.Str name)
                             (Restaurant.Str "9000000000")).

(** An accept whose body carries [riderId: null]. *)
Definition accept_by_nobody : Restaurant.AssignRequest :=
  Restaurant.mkAssignRequest internal_key
    (Restaurant.mkAssignBody "o1" Restaurant.Null Restaurant.Absent Restaurant.Absent).

(** *** Stripe *)

Definition stripe_session (status : string) : Utils.Session :=
  Utils.mkSession status (Some ({["orderId" := "o1"]} : gmap string string)).

(** A stand-in for Stripe: a paid and an unpaid session for order [o1], a
    session id Stripe answers [null] to, and a throw for anything else. *)
Definition toy_stripe (sessionId : string) : option (option Utils.Session) :=
  if String.eqb sessionId "cs_paid" then Some (Some (stripe_session "paid"))
  else if String.eqb sessionId "cs_unpaid" then Some (Some (stripe_session "unpaid"))
  else if String.eqb sessionId "cs_gone" then Some None
  else None.

(** *** Verification requests *)

Definition valid_razorpay : Utils.Verification :=
  Utils.ViaRazorpay (verify_body "rzp-secret/order_R1|pay_P1").
Definition forged_razorpay : Utils.Verification :=
  Utils.ViaRazorpay (verify_body "forged").

(** *** Sessions *)

Definition rider_session : Realtime.Server :=
  Realtime.on_connection "s7" (Realtime.mkUser "a" None) (Realtime.mkServer ∅ ∅ []).

End Samples.

(** * Properties *)

(** ** The realtime gateway *)

Section GatewayFacts.
Import Realtime.

Lemma strict_neq_str_false (a b : option string) :
  strict_neq_str a b = false <-> a = b.
Proof.
  destruct a as [x|], b as [y|]; cbn; try (split; [discriminate | congruence]).
  - destruct (String.eqb_spec x y); cbn; split; congruence.
  - tauto.
Qed.

Lemma emit_route_forbidden (key : option string) (req : EmitRequest) (io : Server) :
  x_internal_key req <> key ->
  emit_route key req io = (io, mkResponse 403 (message_body "Forbidden")).
Proof.
  intros Hne. unfold emit_route.
  destruct (strict_neq_str (x_internal_key req) key) eqn:E; [reflexivity|].
  by apply strict_neq_str_false in E.
Qed.

Lemma emit_route_bad_request (key : option string) (req : EmitRequest) (io : Server)
    (event room payload : jsval) :
  x_internal_key req = key ->
  destructure3 (Some (req_body req)) "event" "room" "payload" = Some (event, room, payload) ->
  truthy event = false \/ truthy room = false ->
  emit_route key req io = (io, mkResponse 400 (message_body "event and room are required")).
Proof.
  intros Hk Hd Hf. unfold emit_route.
  apply strict_neq_str_false in Hk. rewrite Hk, Hd.
  destruct Hf as [-> | ->]; cbn; [reflexivity|].
  by rewrite orb_true_r.
Qed.


Lemma emit_route_dispatch (key : option string) (req : EmitRequest) (io : Server)
    (ev rm : json) (payload : jsval) :
  x_internal_key req = key ->
  destructure3 (Some (req_body req)) "event" "room" "payload" = Some (Some ev, Some rm, payload) ->
  truthy (Some ev) = true -> truthy (Some rm) = true ->
  reserved_event ev = false ->
  emit_route key req io =
    (to_emit rm ev (nullish_or payload (JObj [])) io,
     mkResponse 200 (JObj [("sucess", JBool true)])).
Proof.
  intros Hk Hd He Hr Hres. unfold emit_route.
  apply strict_neq_str_false in Hk. rewrite Hk, Hd, He, Hr, Hres. reflexivity.
Qed.



End GatewayFacts.


(** ** Payment verification and the payment producer *)

Section UtilsFacts.
Import Utils.
Variable hmac_sha256_hex : string -> string -> string.
Variable env : Env.

(** C10. The Razorpay verification publishes exactly when the signature is
    the hex HMAC-SHA256 of "<razorpay_order_id>|<razorpay_payment_id>"
    under the Razorpay secret: with that signature the one message
    { type: "PAYMENT_SUCCESS", data: { orderId, paymentId, provider:
    "razorpay" } } is appended, persistent, to the payment queue and the
    answer is 200; with any other the answer is 400 { message: "Payment
    verification failed" } and the channel is untouched. *)
Theorem payment_success_published_iff_signature_valid (b : VerifyBody) (ch : Channel) :
  let expected := hmac_sha256_hex (RAZORPAY_KEY_SECRET env)
                    (razorpay_order_id b +:+ "|" +:+ razorpay_payment_id b) in
  (razorpay_signature b = expected ->
     verifyRazorpayPayment hmac_sha256_hex env b ch =
       (ch ++ [mkSent (PAYMENT_QUEUE env)
                 (mkMessage (Some (JObj
                    [("type", JStr "PAYMENT_SUCCESS");
                     ("data", JObj [("orderId", JStr (body_orderId b));
                                    ("paymentId", JStr (razorpay_payment_id b));
                                    ("provider", JStr "razorpay")])])))
                 true],
        mkResponse 200 (JObj [("message", JStr "Payment verified successfully")])))
  /\ (razorpay_signature b <> expected ->
     verifyRazorpayPayment hmac_sha256_hex env b ch =
       (ch, mkResponse 400 (JObj [("message", JStr "Payment verification failed")])))
  /\ (fst (verifyRazorpayPayment hmac_sha256_hex env b ch) <> ch
        <-> razorpay_signature b = expected).
Proof.
  intros expected. unfold verifyRazorpayPayment, verifyRazorpaySignature.
  fold expected.
  destruct (String.eqb_spec expected (razorpay_signature b)) as [Heq|Hne]; cbn [negb].
  - split; [reflexivity|]. split; [congruence|].
    split; [congruence|]. intros _. cbn [fst]. unfold publishPaymentSuccess, sendToQueue.
    intros Habs. apply (f_equal length) in Habs. rewrite length_app in Habs. cbn in Habs. lia.
  - split; [congruence|]. split; [reflexivity|]. cbn [fst]. split; congruence.
Qed.

End UtilsFacts.


Section ProducerFacts.
Import Utils.

(** C9 (as the code has it). The envelope that [publishPaymentSuccess]
    hands to the broker is { type: "PAYMENT_SUCCESS", data: { orderId,
    paymentId, provider } }, sent persistent to the payment queue; it has
    no [timestamp] field and its data has no [paymentReference]. *)
Theorem payment_success_envelope_shape (env : Env) (p : Payload) (ch : Channel) :
  exists envelope data,
    publishPaymentSuccess env p ch
      = ch ++ [mkSent (PAYMENT_QUEUE env) (mkMessage (Some envelope)) true] /\
    envelope = JObj [("type", JStr "PAYMENT_SUCCESS"); ("data", data)] /\
    data = JObj [("orderId", JStr (orderId p));
                 ("paymentId", JStr (paymentId p));
                 ("provider", JStr (provider_name (provider p)))] /\
    prop envelope "timestamp" = Some None /\
    prop data "paymentReference" = Some None.
Proof.
  eexists _, _. repeat split.
Qed.
End ProducerFacts.

(** ** The order-ready consumer *)

Section ConsumerFacts.
Import Rider.
Variable distance : Point -> Point -> Q.
Variable geo_point : jsval -> option Point.
Variable axios_post : string -> json -> option string -> bool.
Variable env : Env.

Abbreviation on_message := (on_message distance geo_point axios_post env).
Abbreviation near := (near distance).
Abbreviation offers := (offers axios_post env).

Lemma for_of_offers (o r : jsval) (riders : list IRider) :
  for_of riders (fun rider =>
     try_catch (post axios_post (emit_url env) (offer o r rider) (INTERNAL_SERVICE_KEY env)))
  = (offers o r riders, Some tt).
Proof.
  induction riders as [|x rest IH]; [reflexivity|].
  cbn [for_of]. unfold mbind, Eff_bind at 1.
  rewrite IH. reflexivity.
Qed.

Lemma strict_neq_lit_false (v : jsval) (lit : string) :
  strict_neq_lit v lit = false <-> v = Some (JStr lit).
Proof.
  destruct v as [[]|]; cbn; try (split; [discriminate | congruence]).
  destruct (String.eqb_spec s lit); cbn; split; congruence.
Qed.

Lemma on_message_skip (db : list IRider) (m : Message) (event : json) (ty : jsval) :
  parsed m = Some event -> prop event "type" = Some ty ->
  ty <> Some (JStr "ORDER_READY_FOR_RIDER") ->
  on_message db (Some m) = ([Ack], Some tt).
Proof.
  intros Hp Hty Hne. unfold Rider.on_message. rewrite Hp. cbn.
  rewrite Hty. cbn.
  destruct (strict_neq_lit ty "ORDER_READY_FOR_RIDER") eqn:E; [reflexivity|].
  by apply strict_neq_lit_false in E.
Qed.

Lemma on_message_order_ready (db : list IRider) (m : Message) (o r loc : jsval) (L : Point) :
  carries m (Some (JStr "ORDER_READY_FOR_RIDER")) o r loc ->
  geo_point loc = Some L ->
  on_message db (Some m) = (Find loc :: offers o r (near db L) ++ [Ack], Some tt).
Proof.
  intros (event & data & Hp & Hty & Hd & Hx) HL.
  unfold Rider.on_message. rewrite Hp. cbn. rewrite Hty. cbn. rewrite Hd. cbn.
  rewrite Hx. cbn. unfold Rider_find. cbn. rewrite HL. cbn.
  destruct (near db L) as [|x rest] eqn:E; [reflexivity|].
  cbn [length Nat.eqb].
  unfold mbind at 1, Eff_bind at 1.
  rewrite for_of_offers. reflexivity.
Qed.

Lemma on_message_bad_geometry (db : list IRider) (m : Message) (o r loc : jsval) :
  carries m (Some (JStr "ORDER_READY_FOR_RIDER")) o r loc ->
  geo_point loc = None ->
  on_message db (Some m) = ([Find loc], Some tt).
Proof.
  intros (event & data & Hp & Hty & Hd & Hx) HL.
  unfold Rider.on_message. rewrite Hp. cbn. rewrite Hty. cbn. rewrite Hd. cbn.
  rewrite Hx. cbn. unfold Rider_find. cbn. rewrite HL. reflexivity.
Qed.

Lemma elem_of_insert_near (L : Point) (r x : IRider) (rs : list IRider) :
  x ∈ insert_near distance L r rs <-> x = r \/ x ∈ rs.
Proof.
  induction rs as [|y rest IH]; cbn [insert_near].
  - rewrite list_elem_of_singleton, elem_of_nil. tauto.
  - destruct (Qle_bool _ _).
    + rewrite elem_of_cons. tauto.
    + rewrite !elem_of_cons, IH. tauto.
Qed.

Lemma elem_of_near (db : list IRider) (L : Point) (x : IRider) :
  x ∈ near db L <-> x ∈ db /\ eligible distance L x = true.
Proof.
  unfold Rider.near.
  induction db as [|y rest IH]; cbn [List.filter foldr].
  - rewrite elem_of_nil. tauto.
  - destruct (eligible distance L y) eqn:E; cbn [foldr].
    + rewrite elem_of_insert_near, IH, elem_of_cons.
      split; [intros [->|[? ?]]; auto | intros [[->|?] ?]; auto].
    + rewrite IH, elem_of_cons.
      split; [intros [? ?]; auto | intros [[->|?] ?]; [congruence | auto]].
Qed.

Lemma eligible_spec (L : Point) (c : IRider) :
  eligible distance L c = true <->
  isAvailble c = true /\ isVerified c = true /\ (distance (location c) L <= 500 # 1)%Q.
Proof.
  unfold eligible. rewrite !andb_true_iff, Qle_bool_iff. tauto.
Qed.

Lemma userId_inj_on (db : list IRider) (a b : IRider) :
  NoDup (userId <$> db) -> a ∈ db -> b ∈ db -> userId a = userId b -> a = b.
Proof.
  induction db as [|y rest IH]; cbn [fmap list_fmap].
  - intros _ Ha. by apply elem_of_nil in Ha.
  - rewrite NoDup_cons, !elem_of_cons. intros [Hy Hnd] [->|Ha] [->|Hb] Heq; auto.
    + exfalso. apply Hy. rewrite Heq. by apply list_elem_of_fmap_2.
    + exfalso. apply Hy. rewrite <- Heq. by apply list_elem_of_fmap_2.
Qed.

Lemma elem_of_offers (o r : jsval) (riders : list IRider) (e : effect) :
  e ∈ offers o r riders <->
  exists c, c ∈ riders /\
    e = Post (emit_url env) (offer o r c) (INTERNAL_SERVICE_KEY env)
             (axios_post (emit_url env) (offer o r c) (INTERNAL_SERVICE_KEY env)).
Proof.
  unfold Rider.offers. rewrite list_elem_of_fmap. split; intros (c & ? & ?); eauto.
Qed.

Lemma offer_room (o r : jsval) (c : IRider) :
  prop (offer o r c) "room" = Some (Some (JStr ("user:" +:+ userId c))).
Proof. reflexivity. Qed.

Lemma offer_event (o r : jsval) (c : IRider) :
  prop (offer o r c) "event" = Some (Some (JStr "order:available")).
Proof. reflexivity. Qed.

(** C3 (as the code has it). When no rider of the collection is available,
    verified and within 500 m, the consumer runs the query once and
    acknowledges the message at once: nothing is requeued or
    dead-lettered. *)
Theorem empty_candidates_acknowledged (db : list IRider) (m : Message)
    (o r loc : jsval) (L : Point) :
  carries m (Some (JStr "ORDER_READY_FOR_RIDER")) o r loc ->
  geo_point loc = Some L ->
  (forall c, c ∈ db ->
     ~ (isAvailble c = true /\ isVerified c = true /\
        (distance (location c) L <= 500 # 1)%Q)) ->
  on_message db (Some m) = ([Find loc; Ack], Some tt).
Proof.
  intros Hc HL Hnone.
  rewrite (on_message_order_ready db m o r loc L Hc HL).
  assert (near db L = []) as ->; [|reflexivity].
  destruct (near db L) as [|x rest] eqn:E; [reflexivity|].
  assert (x ∈ near db L) as Hx by (rewrite E; apply elem_of_cons; auto).
  apply elem_of_near in Hx as [Hin Hel].
  apply eligible_spec in Hel. exfalso. exact (Hnone x Hin Hel).
Qed.

(** C4 (as the code has it). For an order-ready message the consumer
    attempts one dispatch per candidate, nearest first, and then
    acknowledges; this holds whatever the gateway answers to each
    dispatch, and the message is never nack'd. *)
Theorem ack_follows_every_dispatch_attempt (db : list IRider) (m : Message)
    (o r loc : jsval) (L : Point) :
  carries m (Some (JStr "ORDER_READY_FOR_RIDER")) o r loc ->
  geo_point loc = Some L ->
  on_message db (Some m) = (Find loc :: offers o r (near db L) ++ [Ack], Some tt)
  /\ length (offers o r (near db L)) = length (near db L)
  /\ forall b, Nack b ∉ fst (on_message db (Some m)).
Proof.
  intros Hc HL.
  rewrite (on_message_order_ready db m o r loc L Hc HL).
  split; [reflexivity|]. split; [apply length_fmap|].
  intros b. cbn [fst]. rewrite elem_of_cons, elem_of_app, elem_of_offers.
  rewrite list_elem_of_singleton.
  intros [?|[(c & _ & ?)|?]]; discriminate.
Qed.

(** C5 (as the code has it). A message whose data destructures is
    processed (the rider query is issued) exactly when its type is
    ORDER_READY_FOR_RIDER; with any other type it is acknowledged and
    skipped. *)
Theorem processed_iff_tagged_order_ready_for_rider (db : list IRider) (m : Message)
    (ty o r loc : jsval) :
  carries m ty o r loc ->
  ((exists g, Find g ∈ fst (on_message db (Some m)))
     <-> ty = Some (JStr "ORDER_READY_FOR_RIDER"))
  /\ (ty <> Some (JStr "ORDER_READY_FOR_RIDER") ->
        on_message db (Some m) = ([Ack], Some tt)).
Proof.
  intros Hc.
  assert (ty <> Some (JStr "ORDER_READY_FOR_RIDER") ->
          on_message db (Some m) = ([Ack], Some tt)) as Hskip.
  { destruct Hc as (event & data & Hp & Hty & _). intros Hne.
    exact (on_message_skip db m event ty Hp Hty Hne). }
  split; [|exact Hskip]. split.
  - intros [g Hg].
    destruct (strict_neq_lit ty "ORDER_READY_FOR_RIDER") eqn:E;
      [|by apply strict_neq_lit_false].
    assert (ty <> Some (JStr "ORDER_READY_FOR_RIDER")) as Hne.
    { intros Heq. apply strict_neq_lit_false in Heq. congruence. }
    rewrite (Hskip Hne) in Hg. cbn in Hg.
    apply list_elem_of_singleton in Hg. discriminate.
  - intros ->. exists loc.
    destruct (geo_point loc) as [L|] eqn:HL.
    + rewrite (on_message_order_ready db m o r loc L Hc HL). apply elem_of_cons; auto.
    + rewrite (on_message_bad_geometry db m o r loc Hc HL). apply elem_of_cons; auto.
Qed.

Lemma insert_near_Permutation (L : Point) (r : IRider) (rs : list IRider) :
  insert_near distance L r rs ≡ₚ r :: rs.
Proof.
  induction rs as [|x rest IH]; cbn [insert_near]; [reflexivity|].
  destruct (Qle_bool _ _); [reflexivity|].
  rewrite IH. apply Permutation_swap.
Qed.

Lemma near_Permutation (db : list IRider) (L : Point) :
  near db L ≡ₚ List.filter (eligible distance L) db.
Proof.
  unfold Rider.near.
  induction (List.filter (eligible distance L) db) as [|x rest IH];
    cbn [foldr]; [reflexivity|].
  by rewrite insert_near_Permutation, IH.
Qed.

Lemma near_NoDup (db : list IRider) (L : Point) :
  NoDup (userId <$> db) -> NoDup (near db L).
Proof.
  intros Hnd. rewrite near_Permutation.
  apply NoDup_ListNoDup, List.NoDup_filter, NoDup_ListNoDup.
  by apply (NoDup_fmap_1 userId).
Qed.

(** C6. Fan-out targets exactly the eligible couriers: while an order-ready
    message with pickup location [L] is processed, a rider [c] of the
    collection is sent an [order:available] push for room
    [user:<userId c>] if and only if [c] is available, verified and at
    most 500 m from [L].  The push is the POST to
    [<REALTIME_SERVICE>/api/v1/internal/emit] with the internal key and
    the body { event, room, payload: { orderId, restaurantId } }; it is
    sent once, and nothing else in the run pushes to that room.  User ids
    are unique in the collection, as the schema's unique index has it. *)
Theorem offer_fanout_targets_exactly_eligible (db : list IRider) (m : Message)
    (o r loc : jsval) (L : Point) (c : IRider) :
  carries m (Some (JStr "ORDER_READY_FOR_RIDER")) o r loc ->
  geo_point loc = Some L ->
  NoDup (userId <$> db) ->
  c ∈ db ->
  let url := tmpl_env (REALTIME_SERVICE env) +:+ "/api/v1/internal/emit" in
  let data := JObj [("event", JStr "order:available");
                    ("room", JStr ("user:" +:+ userId c));
                    ("payload", obj_lit [("orderId", o); ("restaurantId", r)])] in
  let sent := Post url data (INTERNAL_SERVICE_KEY env)
                   (axios_post url data (INTERNAL_SERVICE_KEY env)) in
  let eligible_c := isAvailble c = true /\ isVerified c = true /\
                    (distance (location c) L <= 500 # 1)%Q in
  ((exists e, e ∈ fst (on_message db (Some m)) /\ pushes_offer_to (userId c) e)
   <-> eligible_c) /\
  (sent ∈ fst (on_message db (Some m)) <-> eligible_c) /\
  (forall e, e ∈ fst (on_message db (Some m)) ->
     pushes_offer_to (userId c) e -> e = sent) /\
  (eligible_c ->
   exists pre post,
     fst (on_message db (Some m)) = pre ++ sent :: post /\
     forall e, e ∈ pre ++ post -> ~ pushes_offer_to (userId c) e).
Proof.
  intros Hc HL Hnd Hin url data sent eligible_c.
  rewrite (on_message_order_ready db m o r loc L Hc HL). cbn [fst].
  subst eligible_c. rewrite <- eligible_spec.
  assert (forall c', c' ∈ near db L ->
            pushes_offer_to (userId c)
              (Post (emit_url env) (offer o r c') (INTERNAL_SERVICE_KEY env)
                 (axios_post (emit_url env) (offer o r c') (INTERNAL_SERVICE_KEY env))) ->
            c' = c) as Hsame.
  { intros c' Hc' [_ Hroom].
    apply elem_of_near in Hc' as [Hin' _].
    assert (userId c' = userId c) as Hid by (cbn in Hroom; by simplify_eq).
    exact (userId_inj_on db c' c Hnd Hin' Hin Hid). }
  assert (forall e, e ∈ Find loc :: offers o r (near db L) ++ [Ack] ->
            pushes_offer_to (userId c) e -> e = sent /\ c ∈ near db L) as Honly.
  { intros e He Hpush.
    rewrite elem_of_cons, elem_of_app, elem_of_offers, list_elem_of_singleton in He.
    destruct He as [-> | [(c' & Hc' & ->) | ->]]; cbn in Hpush; try tauto.
    pose proof (Hsame c' Hc' Hpush) as ->. split; [reflexivity|exact Hc']. }
  assert (sent ∈ Find loc :: offers o r (near db L) ++ [Ack] <-> c ∈ near db L) as Hsent.
  { split.
    - intros He. apply (Honly sent He). cbn. auto.
    - intros Hc'. apply elem_of_cons. right. apply elem_of_app. left.
      apply elem_of_offers. exists c. split; [exact Hc'|reflexivity]. }
  assert (c ∈ near db L <-> eligible distance L c = true) as Hnear.
  { rewrite elem_of_near. tauto. }
  split; [|split; [|split]].
  - rewrite <- Hnear. split.
    + intros (e & He & Hpush). by apply (Honly e He).
    + intros Hc'. exists sent. split; [by apply Hsent|]. cbn. auto.
  - by rewrite Hsent.
  - intros e He Hpush. by apply (Honly e He).
  - intros Hel. apply Hnear in Hel.
    apply list_elem_of_split in Hel as (l1 & l2 & Hsplit).
    pose proof (near_NoDup db L Hnd) as Hnodup. rewrite Hsplit in Hnodup.
    apply NoDup_app in Hnodup as (_ & Hnot1 & Hnd2).
    apply NoDup_cons in Hnd2 as [Hnot2 _].
    exists (Find loc :: offers o r l1), (offers o r l2 ++ [Ack]). split.
    + rewrite Hsplit. unfold Rider.offers. rewrite fmap_app, fmap_cons.
      cbn. rewrite <- app_assoc. reflexivity.
    + intros e He Hpush.
      assert (forall c', c' ∈ l1 \/ c' ∈ l2 -> c' ∈ near db L) as Hsub.
      { intros c' H. rewrite Hsplit. apply elem_of_app.
        destruct H; [by left|right; by apply list_elem_of_further]. }
      rewrite !elem_of_app, elem_of_cons, !elem_of_offers,
        list_elem_of_singleton in He.
      destruct He as [[-> | (c' & Hc' & ->)] | [(c' & Hc' & ->) | ->]];
        cbn in Hpush; try tauto.
      * pose proof (Hsame c' (Hsub c' (or_introl Hc')) Hpush) as ->.
        apply (Hnot1 c Hc'). apply list_elem_of_here.
      * pose proof (Hsame c' (Hsub c' (or_intror Hc')) Hpush) as ->.
        by apply Hnot2.
Qed.
End ConsumerFacts.

(** ** The order store *)

Section RestaurantFacts.
Import Restaurant.

Lemma findOneAndUpdate_match (id : string) (filter : Order -> bool)
    (update : Order -> Order) (db : Orders) (o : Order) :
  db !! id = Some o -> filter o = true ->
  findOneAndUpdate id filter update db = (<[id := update o]> db, Some (update o)).
Proof. intros Hl Hf. unfold findOneAndUpdate. by rewrite Hl, Hf. Qed.

Lemma findOneAndUpdate_no_match (id : string) (filter : Order -> bool)
    (update : Order -> Order) (db : Orders) :
  (forall o, db !! id = Some o -> filter o = false) ->
  findOneAndUpdate id filter update db = (db, None).
Proof.
  intros Hf. unfold findOneAndUpdate.
  destruct (db !! id) as [o|] eqn:E; [|reflexivity].
  by rewrite (Hf o eq_refl).
Qed.

Lemma assign_first (key : option string) (req : AssignRequest) (db : Orders) (o : Order) :
  x_internal_key req = key ->
  db !! b_orderId (assign_body req) = Some o -> riderId o = None ->
  assignRiderToOrder key req db =
    (<[b_orderId (assign_body req) := assign_update (assign_body req) o]> db,
     SuccessOrder (assign_update (assign_body req) o)).
Proof.
  intros Hk Hl Hr. unfold assignRiderToOrder.
  apply strict_neq_str_false in Hk. rewrite Hk.
  rewrite (findOneAndUpdate_match _ _ _ _ o Hl); [reflexivity|].
  unfold riderId_null. by rewrite Hr.
Qed.

Lemma assign_taken (key : option string) (req : AssignRequest) (db : Orders)
    (o : Order) (rider : string) :
  x_internal_key req = key ->
  db !! b_orderId (assign_body req) = Some o -> riderId o = Some rider ->
  assignRiderToOrder key req db = (db, conflict).
Proof.
  intros Hk Hl Hr. unfold assignRiderToOrder.
  apply strict_neq_str_false in Hk. rewrite Hk.
  rewrite findOneAndUpdate_no_match; [reflexivity|].
  intros o' Ho'. rewrite Hl in Ho'. injection Ho' as <-.
  unfold riderId_null. by rewrite Hr.
Qed.

(* Whatever the request, an assigned order is never written again. *)
Lemma assigned_order_is_stable (key : option string) (req : AssignRequest)
    (db : Orders) (oid : string) (o : Order) (rider : string) :
  db !! oid = Some o -> riderId o = Some rider ->
  fst (assignRiderToOrder key req db) !! oid = Some o.
Proof.
  intros Hl Hr. unfold assignRiderToOrder, findOneAndUpdate.
  destruct (strict_neq_str _ _); [exact Hl|]. cbn zeta.
  destruct (db !! b_orderId (assign_body req)) as [o'|] eqn:E; [|exact Hl].
  destruct (riderId_null o') eqn:F; [|exact Hl].
  cbn [fst]. rewrite lookup_insert_ne; [exact Hl|].
  intros Heq. rewrite Heq, Hl in E. injection E as <-.
  unfold riderId_null in F. by rewrite Hr in F.
Qed.

Lemma serve_taken (key : option string) (oid : string) (reqs : list AssignRequest)
    (db : Orders) (o : Order) (rider : string) :
  db !! oid = Some o -> riderId o = Some rider ->
  Forall (accept_attempt key oid) reqs ->
  serve key reqs db = (db, replicate (length reqs) conflict).
Proof.
  intros Hl Hr. induction 1 as [|req rest (Hk & Hid & _) _ IH]; [reflexivity|].
  cbn [serve]. rewrite <- Hid in Hl.
  rewrite (assign_taken key req db o rider Hk Hl Hr), IH. reflexivity.
Qed.

Lemma serve_keeps_assigned (key : option string) (reqs : list AssignRequest)
    (db : Orders) (oid : string) (o : Order) (rider : string) :
  db !! oid = Some o -> riderId o = Some rider ->
  fst (serve key reqs db) !! oid = Some o.
Proof.
  intros Hl Hr. revert db Hl.
  induction reqs as [|req rest IH]; intros db Hl; [exact Hl|].
  cbn [serve].
  pose proof (assigned_order_is_stable key req db oid o rider Hl Hr) as Hstep.
  destruct (assignRiderToOrder key req db) as [db1 reply1]. cbn [fst] in Hstep.
  specialize (IH db1 Hstep).
  destruct (serve key rest db1) as [db2 replies]. exact IH.
Qed.

(** C1. Accept is a compare-and-swap: on an order without rider, of all the
    accept attempts served, in whatever number, the first one succeeds
    and writes its rider and the status [rider_assigned]; every later one
    is answered "Order already taken" and the store stays exactly as
    the first attempt left it.  From then on no request to the endpoint,
    whatever it carries, changes the order again. *)
Theorem accept_assigns_exactly_once (key : option string) (db : Orders)
    (oid : string) (o : Order) (first : AssignRequest) (rest : list AssignRequest) :
  db !! oid = Some o -> riderId o = None ->
  Forall (accept_attempt key oid) (first :: rest) ->
  exists rider o',
    b_riderId (assign_body first) = Str rider /\
    o' = assign_update (assign_body first) o /\
    riderId o' = Some rider /\ status o' = "rider_assigned" /\
    serve key (first :: rest) db
      = (<[oid := o']> db, SuccessOrder o' :: replicate (length rest) conflict) /\
    forall later : list AssignRequest,
      fst (serve key later (<[oid := o']> db)) !! oid = Some o'.
Proof.
  intros Hl Hr Hall. apply Forall_cons in Hall as [(Hk & Hid & rider & Hrid) Hrest].
  exists rider, (assign_update (assign_body first) o).
  assert (riderId (assign_update (assign_body first) o) = Some rider) as Hnew.
  { cbn. by rewrite Hrid. }
  repeat (split; [done|]). split.
  - cbn [serve]. rewrite <- Hid in Hl.
    rewrite (assign_first key first db o Hk Hl Hr). rewrite Hid.
    rewrite (serve_taken key oid rest _ _ rider (lookup_insert_eq _ _ _) Hnew Hrest).
    reflexivity.
  - intros later.
    exact (serve_keeps_assigned key later _ oid _ rider (lookup_insert_eq _ _ _) Hnew).
Qed.

Variable casts_to_ObjectId : string -> bool.

Abbreviation payment_success := (payment_success casts_to_ObjectId).
Abbreviation replay := (replay casts_to_ObjectId).

Lemma paid_update_idem (o : Order) : paid_update (paid_update o) = paid_update o.
Proof. reflexivity. Qed.

Lemma payment_success_orders (oid : string) (db : Orders) :
  orders (payment_success oid db)
  = if casts_to_ObjectId oid then alter paid_update oid db else db.
Proof.
  unfold Restaurant.payment_success, findOneAndUpdate.
  destruct (casts_to_ObjectId oid); [|reflexivity].
  destruct (db !! oid) as [o|] eqn:E; cbn.
  - apply map_eq. intros k. rewrite lookup_alter.
    destruct (decide (oid = k)) as [<-|Hne].
    + by rewrite lookup_insert_eq, E.
    + by rewrite lookup_insert_ne.
  - apply map_eq. intros k. rewrite lookup_alter.
    destruct (decide (oid = k)) as [<-|Hne]; [by rewrite E|done].
Qed.

Lemma payment_success_reply (oid : string) (db : Orders) :
  reply (payment_success oid db) = if casts_to_ObjectId oid then Success else Thrown.
Proof.
  unfold Restaurant.payment_success.
  destruct (casts_to_ObjectId oid); [|reflexivity].
  by destruct (findOneAndUpdate _ _ _ _).
Qed.

Lemma payment_success_twice (oid : string) (db : Orders) :
  orders (payment_success oid (orders (payment_success oid db)))
  = orders (payment_success oid db).
Proof.
  rewrite !payment_success_orders.
  destruct (casts_to_ObjectId oid); [|reflexivity].
  apply map_eq. intros k. rewrite !lookup_alter.
  destruct (decide (oid = k)) as [<-|]; [|done].
  rewrite decide_True by done. by destruct (db !! oid).
Qed.

Lemma replay_succ (n : nat) (oid : string) (db : Orders) :
  replay (S n) oid db = orders (payment_success oid db).
Proof.
  revert db. induction n as [|n IH]; intros db; [reflexivity|].
  change (replay (S (S n)) oid db)
    with (replay (S n) oid (orders (payment_success oid db))).
  by rewrite IH, payment_success_twice.
Qed.

(** C2 (as the code has it). Processing the same settlement [n >= 1] times
    leaves the store as processing it once does.  For an order id that
    casts, the answer is success and the order, whatever its payment
    status was before, is [paid] with [expiresAt] unset and nothing else
    changed; a missing order changes nothing.  For an id that does not
    cast the handler throws and the store is untouched.  No other order
    is ever touched. *)
Theorem settlement_replay_is_idempotent (n : nat) (oid : string) (db : Orders) :
  1 <= n ->
  replay n oid db = replay 1 oid db
  /\ (casts_to_ObjectId oid = true ->
        reply (payment_success oid db) = Success /\
        (forall o, db !! oid = Some o ->
           replay n oid db !! oid
           = Some (mkOrder (userId o) (items o) paid None
                           (riderId o) (riderName o) (riderPhone o) (status o))) /\
        (db !! oid = None -> replay n oid db = db))
  /\ (casts_to_ObjectId oid = false ->
        reply (payment_success oid db) = Thrown /\ replay n oid db = db)
  /\ (forall k, k <> oid -> replay n oid db !! k = db !! k).
Proof.
  intros Hn. destruct n as [|n]; [lia|]. rewrite !replay_succ.
  rewrite payment_success_reply, payment_success_orders.
  split; [reflexivity|].
  destruct (casts_to_ObjectId oid); repeat split; try discriminate.
  - intros o Ho. rewrite lookup_alter, decide_True by done. by rewrite Ho.
  - intros Hnone. apply map_eq. intros k. rewrite lookup_alter.
    destruct (decide (oid = k)) as [<-|]; [by rewrite Hnone|done].
  - intros k Hk. by rewrite lookup_alter_ne.
Qed.
End RestaurantFacts.

(** * The properties on concrete data *)

Import Samples.

(** ** Gateway *)

(** C7, at a valid request. An authorised request naming event and room is
    dispatched to the session in the room and answered 200, but the body
    of the answer is { sucess: true }: the key [success] is not in it. *)
Theorem emit_route_reply_misspells_success :
  let '(io', res) := Realtime.emit_route internal_key (emit_to "user:u1") io_one in
  res = mkResponse 200 (JObj [("sucess", JBool true)]) /\
  prop (body res) "success" = Some None /\
  res <> mkResponse 200 (JObj [("success", JBool true)]) /\
  Realtime.outbox io' =
    [("s1", JStr "order:available",
      JObj [("orderId", JStr "o1"); ("restaurantId", JStr "r9")])].
Proof.
  vm_compute. repeat split. discriminate.
Qed.



(** ** Payments *)

Lemma payment_success_published_iff_signature_valid_witness :
  Utils.verifyRazorpayPayment toy_hmac utils_env
      (verify_body "rzp-secret/order_R1|pay_P1") []
    = ([mkSent "payment_queue"
          (mkMessage (Some (JObj
             [("type", JStr "PAYMENT_SUCCESS");
              ("data", JObj [("orderId", JStr "o1");
                             ("paymentId", JStr "pay_P1");
                             ("provider", JStr "razorpay")])])))
          true],
       mkResponse 200 (JObj [("message", JStr "Payment verified successfully")]))
  /\ Utils.verifyRazorpayPayment toy_hmac utils_env (verify_body "forged") []
    = ([], mkResponse 400 (JObj [("message", JStr "Payment verification failed")])).
Proof.
  split.
  - apply (proj1 (payment_success_published_iff_signature_valid toy_hmac utils_env
                    (verify_body "rzp-secret/order_R1|pay_P1") [])).
    reflexivity.
  - apply (proj1 (proj2 (payment_success_published_iff_signature_valid toy_hmac utils_env
                    (verify_body "forged") []))).
    vm_compute. discriminate.
Defined.

(** C9, as worded, fails on the published envelope: it has no [timestamp]
    and its data holds [paymentId], not [paymentReference]. *)
Lemma payment_success_envelope_lacks_timestamp :
  exists envelope data,
    Utils.publishPaymentSuccess utils_env payment_payload []
      = [mkSent "payment_queue" (mkMessage (Some envelope)) true] /\
    prop envelope "timestamp" = Some None /\
    prop envelope "data" = Some (Some data) /\
    prop data "paymentReference" = Some None /\
    prop data "paymentId" = Some (Some (JStr "pay_P1")).
Proof.
  eexists _, _. repeat split.
Qed.

(** ** Order-ready consumer *)

Lemma order_ready_carries (ty : string) :
  Rider.carries (order_ready ty) (Some (JStr ty))
    (Some (JStr "o1")) (Some (JStr "r9")) (Some pickup_json).
Proof. eexists _, _. repeat split. Qed.

(** C3, as worded, fails: with every rider too far, unverified or
    unavailable the candidate set is empty, and the message is
    acknowledged on this first query; no nack is issued. *)
Lemma empty_candidates_are_acked_not_requeued :
  Rider.near planar_metres [rider_d; rider_e; rider_f; rider_g] pickup = [] /\
  Rider.on_message planar_metres geojson_point gateway_up rider_env
      [rider_d; rider_e; rider_f; rider_g] (Some (order_ready "ORDER_READY_FOR_RIDER"))
    = ([Rider.Find (Some pickup_json); Rider.Ack], Some tt) /\
  ~ (exists b, Rider.Nack b ∈
       fst (Rider.on_message planar_metres geojson_point gateway_up rider_env
              [rider_d; rider_e; rider_f; rider_g]
              (Some (order_ready "ORDER_READY_FOR_RIDER")))).
Proof.
  split; [vm_compute; reflexivity|]. split; [vm_compute; reflexivity|].
  intros [b Hb]. vm_compute in Hb.
  repeat (apply elem_of_cons in Hb as [Hb|Hb]; [discriminate|]).
  by apply elem_of_nil in Hb.
Qed.

Lemma empty_candidates_acknowledged_witness :
  Rider.on_message planar_metres geojson_point gateway_up rider_env
      [rider_d; rider_f] (Some (order_ready "ORDER_READY_FOR_RIDER"))
    = ([Rider.Find (Some pickup_json); Rider.Ack], Some tt).
Proof.
  apply (empty_candidates_acknowledged planar_metres geojson_point gateway_up rider_env
           [rider_d; rider_f] (order_ready "ORDER_READY_FOR_RIDER")
           (Some (JStr "o1")) (Some (JStr "r9")) (Some pickup_json) pickup).
  - apply order_ready_carries.
  - reflexivity.
  - intros c Hc (Ha & Hv & Hd).
    apply elem_of_cons in Hc as [->|Hc].
    + vm_compute in Hd. exact (Hd eq_refl).
    + apply elem_of_cons in Hc as [->|Hc].
      * vm_compute in Hv. discriminate.
      * by apply elem_of_nil in Hc.
Defined.

(** C4, as worded, fails: with the gateway refusing every dispatch the
    message is acknowledged all the same, after both attempts. *)
Lemma failed_dispatch_is_acked_not_requeued :
  Rider.on_message planar_metres geojson_point gateway_down rider_env
      [rider_a; rider_d; rider_b] (Some (order_ready "ORDER_READY_FOR_RIDER"))
    = ([Rider.Find (Some pickup_json);
        Rider.Post offer_url (emit_body "user:a") internal_key false;
        Rider.Post offer_url (emit_body "user:b") internal_key false;
        Rider.Ack], Some tt).
Proof. vm_compute. reflexivity. Qed.

Lemma ack_follows_every_dispatch_attempt_witness :
  Rider.on_message planar_metres geojson_point gateway_down rider_env
      [rider_a; rider_d; rider_b] (Some (order_ready "ORDER_READY_FOR_RIDER"))
    = (Rider.Find (Some pickup_json)
         :: Rider.offers gateway_down rider_env (Some (JStr "o1")) (Some (JStr "r9"))
              (Rider.near planar_metres [rider_a; rider_d; rider_b] pickup)
         ++ [Rider.Ack], Some tt).
Proof.
  apply (ack_follows_every_dispatch_attempt planar_metres geojson_point gateway_down rider_env
           [rider_a; rider_d; rider_b] (order_ready "ORDER_READY_FOR_RIDER")
           (Some (JStr "o1")) (Some (JStr "r9")) (Some pickup_json) pickup).
  - apply order_ready_carries.
  - reflexivity.
Defined.

(** C5, as worded, fails: an envelope tagged ORDER_READY_FOR_PICKUP is
    acknowledged and skipped although two riders are eligible, be its
    data worded as the specification has it or as the producer has it. *)
Lemma order_ready_for_pickup_is_skipped :
  Rider.near planar_metres [rider_a; rider_b] pickup <> [] /\
  Rider.on_message planar_metres geojson_point gateway_up rider_env
      [rider_a; rider_b] (Some order_ready_for_pickup)
    = ([Rider.Ack], Some tt) /\
  Rider.on_message planar_metres geojson_point gateway_up rider_env
      [rider_a; rider_b] (Some (order_ready "ORDER_READY_FOR_PICKUP"))
    = ([Rider.Ack], Some tt).
Proof. split; [vm_compute; discriminate|]. split; vm_compute; reflexivity. Qed.

Lemma processed_iff_tagged_order_ready_for_rider_witness :
  (exists g, Rider.Find g ∈
      fst (Rider.on_message planar_metres geojson_point gateway_up rider_env [rider_a; rider_d]
             (Some (order_ready "ORDER_READY_FOR_RIDER"))))
  <-> Some (JStr "ORDER_READY_FOR_RIDER") = Some (JStr "ORDER_READY_FOR_RIDER").
Proof.
  apply (proj1 (processed_iff_tagged_order_ready_for_rider planar_metres geojson_point gateway_up
           rider_env [rider_a; rider_d] (order_ready "ORDER_READY_FOR_RIDER")
           (Some (JStr "ORDER_READY_FOR_RIDER"))
           (Some (JStr "o1")) (Some (JStr "r9")) (Some pickup_json)
           (order_ready_carries "ORDER_READY_FOR_RIDER"))).
Defined.

Lemma offer_fanout_targets_exactly_eligible_witness :
  Rider.Post "http://realtime:5004/api/v1/internal/emit"
     (JObj [("event", JStr "order:available");
            ("room", JStr "user:d");
            ("payload", JObj [("orderId", JStr "o1"); ("restaurantId", JStr "r9")])])
     (Some "internal-secret") true
    ∈ fst (Rider.on_message planar_metres geojson_point gateway_up rider_env five_riders
             (Some (order_ready "ORDER_READY_FOR_RIDER")))
  <-> (Rider.isAvailble rider_d = true /\ Rider.isVerified rider_d = true /\
       (planar_metres (Rider.location rider_d) pickup <= 500 # 1)%Q).
Proof.
  pose proof (offer_fanout_targets_exactly_eligible planar_metres geojson_point
                gateway_up rider_env five_riders (order_ready "ORDER_READY_FOR_RIDER")
                (Some (JStr "o1")) (Some (JStr "r9")) (Some pickup_json) pickup rider_d)
    as H.
  cbv zeta in H. destruct H as (_ & H & _).
  - apply order_ready_carries.
  - reflexivity.
  - apply (bool_decide_unpack (NoDup (Rider.userId <$> five_riders))).
    vm_compute. exact I.
  - unfold five_riders. apply list_elem_of_further, list_elem_of_here.
  - exact H.
Defined.

(* The fan-out scenario: three riders within 500 m and two outside. *)
Example fanout_scenario :
  fst (Rider.on_message planar_metres geojson_point gateway_up rider_env five_riders
         (Some (order_ready "ORDER_READY_FOR_RIDER")))
  = [Rider.Find (Some pickup_json);
     Rider.Post offer_url (emit_body "user:a") internal_key true;
     Rider.Post offer_url (emit_body "user:b") internal_key true;
     Rider.Post offer_url (emit_body "user:c") internal_key true;
     Rider.Ack].
Proof. vm_compute. reflexivity. Qed.

(** ** Order store *)

Lemma accept_assigns_exactly_once_witness :
  exists rider o',
    Restaurant.b_riderId (Restaurant.assign_body (accept_by "riderA" "Asha"))
      = Restaurant.Str rider /\
    o' = Restaurant.assign_update
           (Restaurant.assign_body (accept_by "riderA" "Asha")) ready_order /\
    Restaurant.riderId o' = Some rider /\
    Restaurant.status o' = "rider_assigned" /\
    Restaurant.serve internal_key
          [accept_by "riderA" "Asha"; accept_by "riderB" "Bala"; accept_by "riderA" "Asha"]
          {["o1" := ready_order]}
      = (<["o1" := o']> {["o1" := ready_order]},
         Restaurant.SuccessOrder o' :: replicate 2 Restaurant.conflict) /\
    forall later : list Restaurant.AssignRequest,
      fst (Restaurant.serve internal_key later (<["o1" := o']> {["o1" := ready_order]}))
        !! "o1" = Some o'.
Proof.
  apply (accept_assigns_exactly_once internal_key {["o1" := ready_order]} "o1"
           ready_order (accept_by "riderA" "Asha")
           [accept_by "riderB" "Bala"; accept_by "riderA" "Asha"]).
  - reflexivity.
  - reflexivity.
  - repeat constructor; eexists; reflexivity.
Defined.

(* The race scenario: A and B accept the same order. *)
Example accept_race :
  snd (Restaurant.serve internal_key
         [accept_by "riderA" "Asha"; accept_by "riderB" "Bala"]
         {["o1" := ready_order]})
  = [Restaurant.SuccessOrder
       (Restaurant.mkOrder "u7" [] Restaurant.paid None (Some "riderA") (Some "Asha")
                           (Some "9000000000") "rider_assigned");
     Restaurant.Message 400 "Order already taken"].
Proof. vm_compute. reflexivity. Qed.

(* Why an accept attempt has to name its rider: a body with
   [riderId: null] passes the filter and writes [null] back. *)
Example accept_without_rider_id_leaves_order_open :
  snd (Restaurant.serve internal_key [accept_by_nobody; accept_by "riderB" "Bala"]
         {["o1" := ready_order]})
  = [Restaurant.SuccessOrder
       (Restaurant.mkOrder "u7" [] Restaurant.paid None None None None "rider_assigned");
     Restaurant.SuccessOrder
       (Restaurant.mkOrder "u7" [] Restaurant.paid None (Some "riderB") (Some "Bala")
                           (Some "9000000000") "rider_assigned")].
Proof. vm_compute. reflexivity. Qed.

Lemma settlement_replay_is_idempotent_witness :
  Restaurant.replay hex24 3 order_id {[order_id := pending_order]}
  = Restaurant.replay hex24 1 order_id {[order_id := pending_order]}.
Proof.
  apply (proj1 (settlement_replay_is_idempotent hex24 3 order_id
                  {[order_id := pending_order]} ltac:(lia))).
Defined.

(* A paid order settled again, and a pending one settled three times. *)
Example settlement_replayed :
  Restaurant.replay hex24 3 order_id {[order_id := pending_order]} !! order_id
  = Some (Restaurant.mkOrder "u7" [] Restaurant.paid None None None None "placed").
Proof. vm_compute. reflexivity. Qed.

(** C2, as worded, fails: the update is not held back when the payment
    status is not [pending]; settling an order whose payment [failed]
    answers success and turns it into [paid]. *)
Lemma settlement_is_unconditional :
  hex24 order_id = true /\
  Restaurant.paymentStatus failed_order <> Restaurant.pending /\
  Restaurant.reply (Restaurant.payment_success hex24 order_id
                      {[order_id := failed_order]}) = Restaurant.Success /\
  Restaurant.orders (Restaurant.payment_success hex24 order_id
                       {[order_id := failed_order]}) !! order_id
    = Some (Restaurant.mkOrder "u7" [] Restaurant.paid None None None None "placed") /\
  Restaurant.orders (Restaurant.payment_success hex24 order_id
                       {[order_id := failed_order]})
    <> {[order_id := failed_order]}.
Proof.
  split; [vm_compute; reflexivity|]. split; [discriminate|].
  split; [vm_compute; reflexivity|]. split; [vm_compute; reflexivity|].
  intros Heq.
  apply (f_equal (fun m => Restaurant.paymentStatus <$> m !! order_id)) in Heq.
  vm_compute in Heq. discriminate.
Qed.

(** * Further properties of the services *)

(** ** Gateway: emit endpoint and connections *)

Section GatewayMore.
Import Realtime.

Lemma emit_route_cases (key : option string) (req : EmitRequest) (io : Server) :
  (exists code b, code <> 200 /\ emit_route key req io = (io, mkResponse code b))
  \/ (exists ev rm payload,
        x_internal_key req = key /\
        destructure3 (Some (req_body req)) "event" "room" "payload"
          = Some (Some ev, Some rm, payload) /\
        truthy (Some ev) = true /\ truthy (Some rm) = true /\
        reserved_event ev = false /\
        emit_route key req io =
          (to_emit rm ev (nullish_or payload (JObj [])) io,
           mkResponse 200 (JObj [("sucess", JBool true)]))).
Proof.
  unfold emit_route.
  destruct (strict_neq_str (x_internal_key req) key) eqn:Hk.
  { left. eexists _, _. split; [|reflexivity]. discriminate. }
  apply strict_neq_str_false in Hk.
  destruct (destructure3 _ _ _ _) as [[[event room] payload]|] eqn:Hd.
  2:{ left. eexists _, _. split; [|reflexivity]. discriminate. }
  destruct (truthy event) eqn:He; cbn [negb orb].
  2:{ left. eexists _, _. split; [|reflexivity]. discriminate. }
  destruct (truthy room) eqn:Hr; cbn [negb].
  2:{ left. eexists _, _. split; [|reflexivity]. discriminate. }
  destruct event as [ev|]; [|discriminate]. destruct room as [rm|]; [|discriminate].
  destruct (reserved_event ev) eqn:Hres.
  { left. eexists _, _. split; [|reflexivity]. discriminate. }
  right. exists ev, rm, payload. auto 10.
Qed.

(** X1. The emit endpoint never touches sessions or room membership and
    only ever appends to what connections were sent; any change at all
    implies that the key matched and that the answer is 200. *)
Theorem emit_only_appends_and_only_on_200 (key : option string) (req : EmitRequest)
    (io : Server) :
  sockets (fst (emit_route key req io)) = sockets io /\
  rooms (fst (emit_route key req io)) = rooms io /\
  (exists new, outbox (fst (emit_route key req io)) = outbox io ++ new) /\
  (fst (emit_route key req io) <> io ->
     x_internal_key req = key /\ status_code (snd (emit_route key req io)) = 200).
Proof.
  destruct (emit_route_cases key req io) as [(code & b & Hc & ->)|
    (ev & rm & payload & Hk & _ & _ & _ & _ & ->)]; cbn [fst snd status_code].
  - repeat split; [exists []; by rewrite app_nil_r | done | done].
  - repeat split; eauto.
Qed.


Lemma members_join (sid room : string) (io : Server) (name : string) :
  members (join sid room io) (JStr name) =
    if decide (room = name) then {[sid]} ∪ members io (JStr name) else members io (JStr name).
Proof.
  cbn. destruct (decide (room = name)) as [->|Hne].
  - by rewrite lookup_insert_eq.
  - by rewrite lookup_insert_ne.
Qed.

Lemma session_in_user_room (sid : string) (user : User) (io : Server) :
  sid ∈ members (on_connection sid user io) (JStr ("user:" +:+ _id user)).
Proof.
  unfold on_connection.
  destruct (restaurantId user) as [rid|]; [destruct (String.eqb rid "")|];
    rewrite !members_join; repeat (destruct (decide _) as [?|?]);
    rewrite ?elem_of_union, ?elem_of_singleton; naive_solver.
Qed.

(** X3. A connection joins exactly its own rooms: after [on_connection] a
    session is in a room if and only if it was there before, or it is
    the new session and the room is the one named by its id, its
    [user:<id>] room, or [restaurant:<rid>] for a non-empty restaurant id.
    No other session is moved. *)
Theorem connection_joins_exactly_its_rooms (sid : string) (user : User) (io : Server)
    (s name : string) :
  s ∈ members (on_connection sid user io) (JStr name) <->
  s ∈ members io (JStr name) \/
  (s = sid /\ (name = sid \/ name = "user:" +:+ _id user \/
               exists rid, restaurantId user = Some rid /\ rid <> "" /\
                           name = "restaurant:" +:+ rid)).
Proof.
  unfold on_connection.
  destruct (restaurantId user) as [rid|] eqn:Hrid.
  - destruct (String.eqb_spec rid "") as [->|Hne].
    + rewrite !members_join. cbn [members rooms].
      repeat (destruct (decide _) as [?|?]);
        rewrite ?elem_of_union, ?elem_of_singleton; naive_solver.
    + rewrite !members_join. cbn [members rooms].
      repeat (destruct (decide _) as [?|?]);
        rewrite ?elem_of_union, ?elem_of_singleton; naive_solver.
  - rewrite !members_join. cbn [members rooms].
    repeat (destruct (decide _) as [?|?]);
        rewrite ?elem_of_union, ?elem_of_singleton; naive_solver.
Qed.
End GatewayMore.

Section HandshakeFacts.
Import Realtime.
Variable jwt_verify : string -> option json.

Lemma prop_some_some (v : json) (k : string) (x : json) :
  prop v k = Some (Some x) -> exists fields, v = JObj fields /\ assoc k fields = Some x.
Proof. destruct v; cbn; try discriminate. intros [= H]. eauto. Qed.

(** X4. The handshake middleware accepts a connection exactly when the
    handshake carries a non-empty string token that [jwt.verify] decodes
    to a payload with a truthy [user]; that [user] is what the socket
    keeps.  Everything else is answered [Unauthorized]. *)
Theorem handshake_accepted_iff_token_verifies (auth : jsval) (u : json) :
  authenticate jwt_verify auth = Accepted u <->
  exists a t decoded,
    auth = Some a /\ prop a "token" = Some (Some (JStr t)) /\ t <> "" /\
    jwt_verify t = Some decoded /\
    prop decoded "user" = Some (Some u) /\ truthy (Some u) = true.
Proof.
  unfold authenticate. split.
  - destruct (truthy (handshake_token auth)) eqn:Ht; cbn [negb]; [|discriminate].
    destruct (handshake_token auth) as [[| | |t| |]|] eqn:Htok; try discriminate.
    destruct (jwt_verify t) as [decoded|] eqn:Hv; [|discriminate].
    destruct (prop decoded "user") as [user|] eqn:Hu; [|discriminate].
    destruct (truthy (Some decoded)); cbn [negb orb]; [|discriminate].
    destruct (truthy user) eqn:Htu; cbn [negb]; [|discriminate].
    destruct user as [u'|]; [|discriminate]. intros [= ->].
    unfold handshake_token in Htok.
    destruct auth as [a|]; [|discriminate].
    exists a, t, decoded.
    assert (prop a "token" = Some (Some (JStr t))) as Hp.
    { destruct a; try discriminate; cbn in Htok |- *; by rewrite Htok. }
    repeat split; auto.
    intros ->. cbn in Ht. discriminate.
  - intros (a & t & decoded & -> & Hp & Hne & Hv & Hu & Htu).
    assert (handshake_token (Some a) = Some (JStr t)) as ->.
    { unfold handshake_token. rewrite Hp. by destruct a. }
    assert (truthy (Some (JStr t)) = true) as ->.
    { cbn. by destruct (String.eqb_spec t ""). }
    cbn [negb]. rewrite Hv, Hu, Htu.
    apply prop_some_some in Hu as (fields & -> & _). reflexivity.
Qed.
End HandshakeFacts.

Section EndToEnd.
Import Realtime.

(** X5. End to end: the request the consumer builds for a rider, posted
    with the key the gateway expects, is accepted (200) and puts the
    packet [order:available] with { orderId, restaurantId } on the
    connection of every session that connected as that user. *)
Theorem offer_reaches_connected_rider (key : option string) (o r : jsval)
    (c : Rider.IRider) (sid : string) (u : User) (io0 : Server) :
  _id u = Rider.userId c ->
  let io := on_connection sid u io0 in
  let res := emit_route key (mkEmitRequest key (Rider.offer o r c)) io in
  status_code (snd res) = 200 /\
  (sid, JStr "order:available",
   obj_lit [("orderId", o); ("restaurantId", r)]) ∈ outbox (fst res).
Proof.
  intros Hid io res.
  assert (sid ∈ members io (JStr ("user:" +:+ Rider.userId c))) as Hin.
  { rewrite <- Hid. apply session_in_user_room. }
  subst res.
  rewrite (emit_route_dispatch key _ io (JStr "order:available")
             (JStr ("user:" +:+ Rider.userId c))
             (Some (obj_lit [("orderId", o); ("restaurantId", r)])));
    try reflexivity.
  cbn [fst snd status_code]. split; [reflexivity|].
  unfold to_emit. cbn [outbox]. apply elem_of_app. right.
  apply list_elem_of_fmap. exists sid. split.
  - unfold nullish_or, obj_lit. reflexivity.
  - apply elem_of_elements. unfold targets. cbn [room_set].
    by rewrite fmap_cons, fmap_nil, union_list_singleton_L.
Qed.
End EndToEnd.

(** ** Order-ready consumer *)

Section ConsumerMore.
Import Rider.
Variable distance : Point -> Point -> Q.
Variable geo_point : jsval -> option Point.
Variable axios_post : string -> json -> option string -> bool.
Variable env : Env.

Abbreviation on_message := (on_message distance geo_point axios_post env).
Abbreviation near := (near distance).
Abbreviation offers := (offers axios_post env).

(* Every run of the callback has one of four shapes. *)
Lemma on_message_shape (db : list IRider) (msg : option Message) :
  snd (on_message db msg) = Some tt /\
  (fst (on_message db msg) = []
   \/ fst (on_message db msg) = [Ack]
   \/ (exists loc, geo_point loc = None /\ fst (on_message db msg) = [Find loc])
   \/ (exists m o r loc L,
         msg = Some m /\
         carries m (Some (JStr "ORDER_READY_FOR_RIDER")) o r loc /\
         geo_point loc = Some L /\
         fst (on_message db msg) = Find loc :: offers o r (near db L) ++ [Ack])).
Proof.
  destruct msg as [m|]; [|split; [reflexivity|by left]].
  split; [reflexivity|].
  destruct (parsed m) as [event|] eqn:Hp.
  2:{ left. unfold Rider.on_message. by rewrite Hp. }
  destruct (prop event "type") as [ty|] eqn:Hty.
  2:{ left. unfold Rider.on_message. rewrite Hp. cbn. by rewrite Hty. }
  destruct (strict_neq_lit ty "ORDER_READY_FOR_RIDER") eqn:Hs.
  { right. left. unfold Rider.on_message. rewrite Hp. cbn. rewrite Hty. cbn. by rewrite Hs. }
  apply strict_neq_lit_false in Hs. subst ty.
  destruct (prop event "data") as [data|] eqn:Hd.
  2:{ left. unfold Rider.on_message. rewrite Hp. cbn. rewrite Hty. cbn. by rewrite Hd. }
  destruct (destructure3 data "orderId" "restaurantId" "location")
    as [[[o r] loc]|] eqn:Hx.
  2:{ left. unfold Rider.on_message. rewrite Hp. cbn. rewrite Hty. cbn. rewrite Hd. cbn.
      by rewrite Hx. }
  assert (carries m (Some (JStr "ORDER_READY_FOR_RIDER")) o r loc) as Hc.
  { exists event, data. auto. }
  destruct (geo_point loc) as [L|] eqn:HL.
  - right. right. right. exists m, o, r, loc, L.
    rewrite (on_message_order_ready distance geo_point axios_post env db m o r loc L Hc HL). auto.
  - right. right. left. exists loc.
    rewrite (on_message_bad_geometry distance geo_point axios_post env db m o r loc Hc HL). auto.
Qed.

(** X6. Whatever the message and the riders collection, the callback
    returns without throwing, never nacks, acknowledges at most once and
    then as its last effect, and every request it sends goes to the emit
    URL with the internal key. *)
Theorem consumer_never_throws_never_nacks (db : list IRider) (msg : option Message) :
  snd (on_message db msg) = Some tt /\
  (forall b, Nack b ∉ fst (on_message db msg)) /\
  (forall pre post, fst (on_message db msg) = pre ++ Ack :: post -> post = []) /\
  (forall e, e ∈ fst (on_message db msg) ->
     e = Ack \/ (exists g, e = Find g) \/
     exists data ok, e = Post (emit_url env) data (INTERNAL_SERVICE_KEY env) ok).
Proof.
  destruct (on_message_shape db msg) as
    [Hret [H|[H|[(loc & _ & H)|(m & o & r & loc & L & _ & _ & _ & H)]]]];
    rewrite H; split; try exact Hret; clear H Hret.
  - repeat split; [intros b Hb; by apply elem_of_nil in Hb
                  | intros pre post Hpp; by destruct pre
                  | intros e He; by apply elem_of_nil in He].
  - repeat split.
    + intros b Hb. apply list_elem_of_singleton in Hb. discriminate.
    + intros pre post Hpp. destruct pre as [|x [|y pre]]; cbn in Hpp; by simplify_eq.
    + intros e He. apply list_elem_of_singleton in He. auto.
  - repeat split.
    + intros b Hb. apply list_elem_of_singleton in Hb. discriminate.
    + intros pre post Hpp. destruct pre as [|x [|y pre]]; cbn in Hpp; by simplify_eq.
    + intros e He. apply list_elem_of_singleton in He. eauto.
  - assert (forall e, e ∈ offers o r (near db L) ->
              exists data ok, e = Post (emit_url env) data (INTERNAL_SERVICE_KEY env) ok) as Hoff.
    { intros e He.
      apply (elem_of_offers axios_post env) in He as (c & _ & ->). eauto. }
    repeat split.
    + intros b Hb. apply elem_of_cons in Hb as [Hb|Hb]; [discriminate|].
      apply elem_of_app in Hb as [Hb|Hb].
      * apply Hoff in Hb as (? & ? & ?). discriminate.
      * apply list_elem_of_singleton in Hb. discriminate.
    + intros pre post Hpp.
      destruct post as [|x post'] using rev_ind; [reflexivity|]. exfalso.
      change (Find loc :: offers o r (near db L) ++ [Ack])
        with ((Find loc :: offers o r (near db L)) ++ [Ack]) in Hpp.
      replace (pre ++ Ack :: post' ++ [x]) with ((pre ++ Ack :: post') ++ [x]) in Hpp
        by (by rewrite <- app_assoc).
      apply app_inj_tail in Hpp as [Hpp _].
      assert (Ack ∈ Find loc :: offers o r (near db L)) as Hin.
      { rewrite Hpp. apply elem_of_app. right. apply elem_of_cons. by left. }
      apply elem_of_cons in Hin as [Hin|Hin]; [discriminate|].
      apply Hoff in Hin as (? & ? & ?). discriminate.
    + intros e He. apply elem_of_cons in He as [->|He]; [eauto|].
      apply elem_of_app in He as [He|He]; [right; right; by apply Hoff|].
      apply list_elem_of_singleton in He. auto.
Qed.

(** X7. A message is acknowledged exactly when its content parses and
    either its type is not ORDER_READY_FOR_RIDER, or its data destructures
    and the location is a GeoJSON point.  Content that does not parse, a
    null event, missing data or a bad location leave it unacknowledged. *)
Theorem acknowledged_iff_skipped_or_fanned_out (db : list IRider) (m : Message) :
  Ack ∈ fst (on_message db (Some m)) <->
  exists event ty,
    parsed m = Some event /\ prop event "type" = Some ty /\
    (ty <> Some (JStr "ORDER_READY_FOR_RIDER") \/
     exists o r loc L, carries m ty o r loc /\ geo_point loc = Some L).
Proof.
  split.
  - intros Hack.
    destruct (parsed m) as [event|] eqn:Hp.
    2:{ unfold Rider.on_message in Hack. rewrite Hp in Hack. by apply elem_of_nil in Hack. }
    destruct (prop event "type") as [ty|] eqn:Hty.
    2:{ unfold Rider.on_message in Hack. rewrite Hp in Hack. cbn in Hack.
        rewrite Hty in Hack. by apply elem_of_nil in Hack. }
    exists event, ty. repeat split; [done..|].
    destruct (strict_neq_lit ty "ORDER_READY_FOR_RIDER") eqn:Hs.
    { left. intros Heq. apply strict_neq_lit_false in Heq. congruence. }
    right. apply strict_neq_lit_false in Hs. subst ty.
    destruct (on_message_shape db (Some m)) as
      [_ [H|[H|[(loc & Hg & H)|(m' & o & r & loc & L & [= <-] & Hc & HL & H)]]]].
    + rewrite H in Hack. by apply elem_of_nil in Hack.
    + exfalso. unfold Rider.on_message in H. rewrite Hp in H. cbn in H.
      rewrite Hty in H. cbn in H.
      destruct (prop event "data") as [data|]; cbn in H; [|discriminate].
      destruct (destructure3 data _ _ _) as [[[o r] loc]|]; cbn in H; [|discriminate].
      unfold Rider_find in H. cbn in H.
      destruct (geo_point loc); cbn in H; [|discriminate].
      destruct (length _ =? 0)%nat; cbn in H; [discriminate|].
      destruct (for_of _ _) as [t [[]|]]; cbn in H; discriminate.
    + rewrite H in Hack. apply list_elem_of_singleton in Hack. discriminate.
    + eauto 10.
  - intros (event & ty & Hp & Hty & [Hne|(o & r & loc & L & Hc & HL)]).
    + rewrite (on_message_skip distance geo_point axios_post env db m event ty Hp Hty Hne).
      apply list_elem_of_singleton. reflexivity.
    + destruct (strict_neq_lit ty "ORDER_READY_FOR_RIDER") eqn:Hs.
      * assert (ty <> Some (JStr "ORDER_READY_FOR_RIDER")) as Hne.
        { intros Heq. apply strict_neq_lit_false in Heq. congruence. }
        rewrite (on_message_skip distance geo_point axios_post env db m event ty Hp Hty Hne).
        apply list_elem_of_singleton. reflexivity.
      * apply strict_neq_lit_false in Hs. subst ty.
        rewrite (on_message_order_ready distance geo_point axios_post env db m o r loc L Hc HL).
        cbn [fst]. apply elem_of_cons. right. apply elem_of_app. right.
        apply list_elem_of_singleton. reflexivity.
Qed.
End ConsumerMore.

Section RoundTrip.
Import Rider.
Variable distance : Point -> Point -> Q.
Variable geo_point : jsval -> option Point.
Variable axios_post : string -> json -> option string -> bool.
Variable env : Env.

(** X8. Publisher to consumer: what [publishEvent] puts on the order-ready
    queue for a ready order is, when delivered, fanned out with the same
    order id and restaurant id and acknowledged; published under any other
    type it is acknowledged and skipped. *)
Theorem published_event_is_consumed (now ty orderId restaurantId : string)
    (location : json) (L : Point) (ch : Channel) (db : list IRider) :
  geo_point (Some location) = Some L ->
  exists m,
    Restaurant.publishEvent now ty
        (Restaurant.order_ready_data orderId restaurantId location) ch
      = ch ++ [mkSent "order_ready_queue" m true] /\
    (ty = "ORDER_READY_FOR_RIDER" ->
       Rider.on_message distance geo_point axios_post env db (Some m)
       = (Find (Some location)
            :: Rider.offers axios_post env (Some (JStr orderId)) (Some (JStr restaurantId))
                 (Rider.near distance db L)
            ++ [Ack], Some tt)) /\
    (ty <> "ORDER_READY_FOR_RIDER" ->
       Rider.on_message distance geo_point axios_post env db (Some m) = ([Ack], Some tt)).
Proof.
  intros HL. eexists. split; [reflexivity|]. split.
  - intros ->.
    apply (on_message_order_ready distance geo_point axios_post env db _ _ _ _ L); [|exact HL].
    eexists _, _. repeat split.
  - intros Hne.
    eapply (on_message_skip distance geo_point axios_post env db); [reflexivity|reflexivity|].
    intros Heq. apply Hne. by injection Heq.
Qed.
End RoundTrip.

(** ** Stripe verification and the payment channel *)

Section StripeFacts.
Import Utils.
Variable stripe_retrieve : string -> option (option Session).
Variable env : Env.

(** X9. [verifyStripe] publishes the message { type: "PAYMENT_SUCCESS",
    data: { orderId, paymentId: <session id>, provider: "stripe" } },
    persistent, to the payment queue and answers 200 for every retrieved
    session whose metadata names a non-empty order id, whatever the
    session's payment status; it publishes only then, and otherwise
    answers 500 when the retrieval throws, 400 "Payment verifcation
    failed" for no session and 400 "orderid not found in stripe
    session" for a session without order id, the channel untouched. *)
Theorem verifyStripe_publishes_iff_session_names_order (sessionId : string) (ch : Channel) :
  (forall session orderId,
     stripe_retrieve sessionId = Some (Some session) ->
     session_orderId session = Some orderId -> orderId <> "" ->
     verifyStripe stripe_retrieve env sessionId ch =
       (ch ++ [mkSent (PAYMENT_QUEUE env)
                 (mkMessage (Some (JObj
                    [("type", JStr "PAYMENT_SUCCESS");
                     ("data", JObj [("orderId", JStr orderId);
                                    ("paymentId", JStr sessionId);
                                    ("provider", JStr "stripe")])])))
                 true],
        mkResponse 200 (JObj [("message", JStr "payment verified successfully")])))
  /\ (stripe_retrieve sessionId = None ->
      verifyStripe stripe_retrieve env sessionId ch =
        (ch, mkResponse 500 (JObj [("message", JStr "stripe payment failed")])))
  /\ (stripe_retrieve sessionId = Some None ->
      verifyStripe stripe_retrieve env sessionId ch =
        (ch, mkResponse 400 (JObj [("message", JStr "Payment verifcation failed")])))
  /\ (forall session,
       stripe_retrieve sessionId = Some (Some session) ->
       session_orderId session = None \/ session_orderId session = Some "" ->
       verifyStripe stripe_retrieve env sessionId ch =
         (ch, mkResponse 400
                (JObj [("message", JStr "orderid not found in stripe session")])))
  /\ (fst (verifyStripe stripe_retrieve env sessionId ch) <> ch ->
      exists session orderId,
        stripe_retrieve sessionId = Some (Some session) /\
        session_orderId session = Some orderId /\ orderId <> "").
Proof.
  unfold verifyStripe. repeat split.
  - intros session orderId -> -> Hne.
    by destruct (String.eqb_spec orderId "").
  - by intros ->.
  - by intros ->.
  - intros session -> [-> | ->]; reflexivity.
  - destruct (stripe_retrieve sessionId) as [[session|]|]; cbn [fst]; try done.
    destruct (session_orderId session) as [orderId|] eqn:Ho; cbn [fst]; try done.
    destruct (String.eqb_spec orderId ""); cbn [fst]; try done.
    intros _. eauto.
Qed.
End StripeFacts.

Section ChannelFacts.
Import Utils.
Variable hmac_sha256_hex : string -> string -> string.
Variable stripe_retrieve : string -> option (option Session).
Variable env : Env.

Abbreviation verify := (verify hmac_sha256_hex stripe_retrieve env).
Abbreviation verify_all := (verify_all hmac_sha256_hex stripe_retrieve env).
Abbreviation vouches := (vouches hmac_sha256_hex stripe_retrieve env).

(* One request: the channel is kept, and what is added is vouched for. *)
Lemma verify_step (v : Verification) (ch : Channel) :
  fst (verify v ch) = ch
  \/ exists orderId paymentId prov,
       vouches v orderId paymentId prov /\
       fst (verify v ch) =
         ch ++ [mkSent (PAYMENT_QUEUE env)
                  (mkMessage (Some (JObj
                     [("type", JStr "PAYMENT_SUCCESS");
                      ("data", JObj [("orderId", JStr orderId);
                                     ("paymentId", JStr paymentId);
                                     ("provider", JStr prov)])])))
                  true].
Proof.
  destruct v as [b|sessionId]; cbn [Utils.verify].
  - unfold verifyRazorpayPayment, verifyRazorpaySignature.
    destruct (String.eqb_spec
                (hmac_sha256_hex (RAZORPAY_KEY_SECRET env)
                   (razorpay_order_id b +:+ "|" +:+ razorpay_payment_id b))
                (razorpay_signature b)) as [Heq|Hne]; cbn [negb fst]; [|by left].
    right. exists (body_orderId b), (razorpay_payment_id b), "razorpay".
    split; [|reflexivity]. cbn. auto.
  - unfold verifyStripe.
    destruct (stripe_retrieve sessionId) as [[session|]|] eqn:Hs; cbn [fst]; try by left.
    destruct (session_orderId session) as [orderId|] eqn:Ho; cbn [fst]; try by left.
    destruct (String.eqb_spec orderId ""); cbn [fst]; try by left.
    right. exists orderId, sessionId, "stripe".
    split; [|reflexivity]. cbn. rewrite Hs. eauto 10.
Qed.

(** X10. No payment event without a verification: after any sequence of
    requests to the two verification endpoints, every message on the
    channel was either there before or is a persistent { type:
    "PAYMENT_SUCCESS", data: { orderId, paymentId, provider } } on the
    payment queue for which one of the requests vouches: a Razorpay
    body with a valid signature, or a Stripe session that names the
    order.  Messages already on the channel stay, in order. *)
Theorem every_payment_event_is_vouched_for (vs : list Verification) (ch : Channel)
    (s : Sent) :
  s ∈ verify_all vs ch ->
  ch `prefix_of` verify_all vs ch /\
  (s ∈ ch \/
   exists v orderId paymentId prov,
     v ∈ vs /\ vouches v orderId paymentId prov /\
     s = mkSent (PAYMENT_QUEUE env)
           (mkMessage (Some (JObj
              [("type", JStr "PAYMENT_SUCCESS");
               ("data", JObj [("orderId", JStr orderId);
                              ("paymentId", JStr paymentId);
                              ("provider", JStr prov)])])))
           true).
Proof.
  revert ch. induction vs as [|v rest IH]; intros ch Hin.
  { split; [reflexivity|by left]. }
  change (verify_all (v :: rest) ch) with (verify_all rest (fst (verify v ch))) in *.
  destruct (IH _ Hin) as [Hpre Hs].
  destruct (verify_step v ch) as [Hsame|(o & pid & prov & Hv & Happ)].
  - rewrite Hsame in *. split; [exact Hpre|].
    destruct Hs as [Hs|(v' & o & pid & prov & Hv' & Hvo & ->)]; [by left|].
    right. exists v', o, pid, prov. split; [by apply list_elem_of_further|done].
  - split.
    + etransitivity; [|exact Hpre]. rewrite Happ. by eexists.
    + destruct Hs as [Hs|(v' & o' & pid' & prov' & Hv' & Hvo & ->)].
      * rewrite Happ in Hs. apply elem_of_app in Hs as [Hs|Hs]; [by left|].
        apply list_elem_of_singleton in Hs. subst s.
        right. exists v, o, pid, prov. split; [apply list_elem_of_here|done].
      * right. exists v', o', pid', prov'.
        split; [by apply list_elem_of_further|done].
Qed.
End ChannelFacts.

(** ** Order store: the other handlers *)

Section RestaurantMore.
Import Restaurant.


Lemma alter_found (f : Order -> Order) (id : string) (db : Orders) (o : Order) :
  db !! id = Some o -> alter f id db = <[id := f o]> db.
Proof.
  intros H. apply map_eq. intros k. rewrite lookup_alter.
  destruct (decide (id = k)) as [<-|Hne].
  - by rewrite lookup_insert_eq, H.
  - by rewrite lookup_insert_ne.
Qed.

(** X12. The handler that reads, checks and then saves assigns twice: when
    two requests for the same free order both read before either
    writes, both are answered success and the second write replaces the
    first rider; served one after the other, the second is refused. *)
Theorem naive_handler_double_assigns (a b : AssignBody) (db : Orders) (o : Order)
    (ra rb : string) :
  b_orderId a = b_orderId b ->
  db !! b_orderId a = Some o -> has_rider o = false ->
  b_riderId a = Str ra -> b_riderId b = Str rb -> ra <> "" ->
  naive_interleaved a b db
    = Some (<[b_orderId a := with_riderId (Some rb) o]> db, Success, Success)
  /\ naive_sequential a b db
    = Some (<[b_orderId a := with_riderId (Some ra) o]> db, Success,
            Error 400 "Order already assigned").
Proof.
  intros Hid Hl Hfree Ha Hb Hra.
  assert (has_rider (with_riderId (Some ra) o) = true) as Htaken.
  { unfold has_rider. cbn. by destruct (String.eqb_spec ra ""). }
  split.
  - unfold naive_interleaved, naive_read. rewrite <- Hid, Hl. cbn.
    unfold naive_finish. rewrite Hfree, Ha, Hb, <- Hid. cbn [assigned_value].
    rewrite (alter_found _ _ db o Hl).
    rewrite (alter_found _ _ _ (with_riderId (Some ra) o) (lookup_insert_eq _ _ _)).
    by rewrite insert_insert_eq.
  - unfold naive_sequential, naive_read. rewrite Hl. cbn.
    unfold naive_finish at 1. rewrite Hfree, Ha. cbn [assigned_value].
    rewrite (alter_found _ _ db o Hl). rewrite <- Hid, lookup_insert_eq. cbn.
    unfold naive_finish. by rewrite Htaken.
Qed.

(** X13. [acceptOrder] of the rider service either assigns the order to
    the calling rider (id, name and phone, status [rider_assigned]) and
    answers "Order accepted", or leaves the store untouched and answers
    "Failed to accept order"; the failure covers a key mismatch, a
    missing order and an order that already has a rider alike. *)
Theorem acceptOrder_outcome (rider_key key : option string) (oid : string)
    (rider : RiderUser) (db : Orders) :
  (exists o o',
     rider_key = key /\ db !! oid = Some o /\ riderId o = None /\
     riderId o' = Some (rider_id rider) /\ riderName o' = Some (rider_name rider) /\
     riderPhone o' = Some (rider_phoneNumber rider) /\ status o' = "rider_assigned" /\
     acceptOrder rider_key key oid rider db = (<[oid := o']> db, OrderAccepted o'))
  \/ (acceptOrder rider_key key oid rider db = (db, AcceptFailed) /\
      (rider_key <> key \/ db !! oid = None \/
       exists o r, db !! oid = Some o /\ riderId o = Some r)).
Proof.
  unfold acceptOrder, assignRiderToOrder. cbn [x_internal_key assign_body b_orderId].
  destruct (strict_neq_str rider_key key) eqn:Hk.
  { right. split; [reflexivity|]. left. intros Heq.
    apply strict_neq_str_false in Heq. congruence. }
  apply strict_neq_str_false in Hk.
  unfold findOneAndUpdate.
  destruct (db !! oid) as [o|] eqn:Hl; [|right; auto].
  unfold riderId_null. destruct (riderId o) as [r|] eqn:Hr.
  - right. split; [reflexivity|]. right. right. eauto.
  - left. eexists o, _. repeat split; try done.
Qed.

Lemma sweep_lookup (now : Z) (db : Orders) (id : string) :
  ttl_sweep now db !! id =
    match db !! id with
    | Some o => if ttl_expired now o then None else Some o
    | None => None
    end.
Proof.
  unfold ttl_sweep. destruct (db !! id) as [o|] eqn:Hl.
  - destruct (ttl_expired now o) eqn:He.
    + apply map_lookup_filter_None. right. intros o' Ho'. cbn.
      rewrite Hl in Ho'. injection Ho' as <-. congruence.
    + apply map_lookup_filter_Some. split; [exact Hl|exact He].
  - apply map_lookup_filter_None. by left.
Qed.

Variable casts_to_ObjectId : string -> bool.

(** X14. Expiry and settlement: an order created at [t0] is kept by every
    TTL pass up to [t0] + 15 minutes and deleted by any later pass, but
    once the payment success handler has run on it (its id being the
    ObjectId the creation gave it) no pass deletes it, at any time.  A
    request whose id does not cast throws and protects nothing. *)
Theorem unpaid_order_expires_settled_order_stays (id st user : string)
    (cart : list json) (t0 now : Z) (db : Orders) :
  let created := mkOrder user cart pending (Some (t0 + 900000)%Z) None None None st in
  let db0 := create_order id st user cart t0 db in
  db0 !! id = Some created /\
  ((now <= t0 + 900000)%Z -> ttl_sweep now db0 !! id = Some created) /\
  ((t0 + 900000 < now)%Z -> ttl_sweep now db0 !! id = None) /\
  (casts_to_ObjectId id = true ->
   reply (payment_success casts_to_ObjectId id db0) = Success /\
   ttl_sweep now (orders (payment_success casts_to_ObjectId id db0)) !! id
     = Some (mkOrder user cart paid None None None None st)) /\
  (casts_to_ObjectId id = false ->
   reply (payment_success casts_to_ObjectId id db0) = Thrown /\
   ttl_sweep now (orders (payment_success casts_to_ObjectId id db0)) = ttl_sweep now db0).
Proof.
  intros created db0.
  assert (db0 !! id = Some created) as Hl by apply lookup_insert_eq.
  split; [exact Hl|].
  rewrite payment_success_reply, payment_success_orders.
  repeat split.
  - intros Hle. rewrite sweep_lookup, Hl. unfold ttl_expired. cbn.
    by rewrite (proj2 (Z.ltb_ge _ _)) by lia.
  - intros Hlt. rewrite sweep_lookup, Hl. unfold ttl_expired. cbn.
    by rewrite (proj2 (Z.ltb_lt _ _)) by lia.
  - by rewrite H.
  - rewrite H, sweep_lookup, lookup_alter, decide_True by done.
    rewrite Hl. reflexivity.
  - by rewrite H.
  - by rewrite H.
Qed.

Lemma assign_as_alter (key : option string) (req : AssignRequest) (db : Orders) :
  fst (assignRiderToOrder key req db) =
    if strict_neq_str (x_internal_key req) key then db
    else alter (fun o => if riderId_null o then assign_update (assign_body req) o else o)
               (b_orderId (assign_body req)) db.
Proof.
  unfold assignRiderToOrder, findOneAndUpdate.
  destruct (strict_neq_str _ _); [reflexivity|]. cbn zeta.
  destruct (db !! b_orderId (assign_body req)) as [o|] eqn:Hl.
  - rewrite (alter_found _ _ db o Hl).
    destruct (riderId_null o); cbn [fst]; [reflexivity|].
    symmetry. by apply insert_id.
  - cbn [fst]. apply map_eq. intros k. rewrite lookup_alter.
    destruct (decide (_ = k)) as [<-|]; [by rewrite Hl|done].
Qed.

(** X17. Settlement and assignment commute: the payment success handler
    and an assignment request, for the same order or for different ones,
    leave the same store in either order. *)
Theorem settlement_and_assignment_commute (key : option string) (req : AssignRequest)
    (oid : string) (db : Orders) :
  orders (payment_success casts_to_ObjectId oid (fst (assignRiderToOrder key req db)))
  = fst (assignRiderToOrder key req
           (orders (payment_success casts_to_ObjectId oid db))).
Proof.
  rewrite !payment_success_orders.
  destruct (casts_to_ObjectId oid); [|reflexivity].
  rewrite !assign_as_alter.
  destruct (strict_neq_str _ _); [reflexivity|].
  apply map_eq. intros k. rewrite !lookup_alter.
  destruct (decide (oid = k)) as [<-|Hk];
    destruct (decide (b_orderId (assign_body req) = oid)) as [Hb|Hb];
    rewrite ?lookup_alter; repeat case_decide; try congruence;
    try (by destruct (db !! _)).
  all: try (destruct (db !! oid) as [o|]; [|reflexivity]; cbn;
            unfold riderId_null; cbn; by destruct (riderId o)).
  rewrite Hb. destruct (db !! oid) as [o|]; [|reflexivity]. cbn.
  unfold riderId_null. cbn. by destruct (riderId o).
Qed.
End RestaurantMore.

(** ** The further properties on concrete data *)


(* The packet written at that request. *)
Example emit_to_user_room :
  Realtime.outbox (fst (Realtime.emit_route internal_key (emit_to "user:u1") io_one))
  = [("s1", JStr "order:available",
      JObj [("orderId", JStr "o1"); ("restaurantId", JStr "r9")])].
Proof. vm_compute. reflexivity. Qed.

Lemma offer_reaches_connected_rider_witness :
  status_code (snd (Realtime.emit_route internal_key
     (Realtime.mkEmitRequest internal_key
        (Rider.offer (Some (JStr "o1")) (Some (JStr "r9")) rider_a))
     rider_session)) = 200 /\
  ("s7", JStr "order:available",
   obj_lit [("orderId", Some (JStr "o1")); ("restaurantId", Some (JStr "r9"))])
  ∈ Realtime.outbox (fst (Realtime.emit_route internal_key
       (Realtime.mkEmitRequest internal_key
          (Rider.offer (Some (JStr "o1")) (Some (JStr "r9")) rider_a))
       rider_session)).
Proof.
  apply (offer_reaches_connected_rider internal_key (Some (JStr "o1")) (Some (JStr "r9"))
           rider_a "s7" (Realtime.mkUser "a" None) (Realtime.mkServer ∅ ∅ [])).
  reflexivity.
Defined.

Lemma published_event_is_consumed_witness :
  exists m,
    Restaurant.publishEvent "2025-01-01T10:00:00.000Z" "ORDER_READY_FOR_RIDER"
        (Restaurant.order_ready_data "o1" "r9" pickup_json) []
      = [] ++ [mkSent "order_ready_queue" m true] /\
    ("ORDER_READY_FOR_RIDER" = "ORDER_READY_FOR_RIDER" ->
       Rider.on_message planar_metres geojson_point gateway_up rider_env five_riders (Some m)
       = (Rider.Find (Some pickup_json)
            :: Rider.offers gateway_up rider_env (Some (JStr "o1")) (Some (JStr "r9"))
                 (Rider.near planar_metres five_riders pickup)
            ++ [Rider.Ack], Some tt)) /\
    ("ORDER_READY_FOR_RIDER" <> "ORDER_READY_FOR_RIDER" ->
       Rider.on_message planar_metres geojson_point gateway_up rider_env five_riders (Some m)
       = ([Rider.Ack], Some tt)).
Proof.
  apply (published_event_is_consumed planar_metres geojson_point gateway_up rider_env
           "2025-01-01T10:00:00.000Z" "ORDER_READY_FOR_RIDER" "o1" "r9"
           pickup_json pickup [] five_riders).
  reflexivity.
Defined.

(* An unpaid Checkout Session is published like a paid one. *)
Example unpaid_stripe_session_is_published :
  Utils.verifyStripe toy_stripe utils_env "cs_unpaid" []
  = ([mkSent "payment_queue"
        (mkMessage (Some (JObj
           [("type", JStr "PAYMENT_SUCCESS");
            ("data", JObj [("orderId", JStr "o1");
                           ("paymentId", JStr "cs_unpaid");
                           ("provider", JStr "stripe")])])))
        true],
     mkResponse 200 (JObj [("message", JStr "payment verified successfully")])).
Proof. vm_compute. reflexivity. Qed.

Lemma every_payment_event_is_vouched_for_witness :
  [] `prefix_of`
    Utils.verify_all toy_hmac toy_stripe utils_env
      [forged_razorpay; valid_razorpay; Utils.ViaStripe "cs_gone"] [] /\
  (mkSent "payment_queue"
     (mkMessage (Some (JObj
        [("type", JStr "PAYMENT_SUCCESS");
         ("data", JObj [("orderId", JStr "o1");
                        ("paymentId", JStr "pay_P1");
                        ("provider", JStr "razorpay")])])))
     true ∈ [] \/
   exists v orderId paymentId prov,
     v ∈ [forged_razorpay; valid_razorpay; Utils.ViaStripe "cs_gone"] /\
     Utils.vouches toy_hmac toy_stripe utils_env v orderId paymentId prov /\
     mkSent "payment_queue"
       (mkMessage (Some (JObj
          [("type", JStr "PAYMENT_SUCCESS");
           ("data", JObj [("orderId", JStr "o1");
                          ("paymentId", JStr "pay_P1");
                          ("provider", JStr "razorpay")])])))
       true
     = mkSent "payment_queue"
         (mkMessage (Some (JObj
            [("type", JStr "PAYMENT_SUCCESS");
             ("data", JObj [("orderId", JStr orderId);
                            ("paymentId", JStr paymentId);
                            ("provider", JStr prov)])])))
         true).
Proof.
  apply (every_payment_event_is_vouched_for toy_hmac toy_stripe utils_env
           [forged_razorpay; valid_razorpay; Utils.ViaStripe "cs_gone"] []).
  vm_compute. apply list_elem_of_here.
Defined.

(* The forged body and the missing session add nothing. *)
Example only_the_verified_payment_is_published :
  Utils.verify_all toy_hmac toy_stripe utils_env
    [forged_razorpay; valid_razorpay; Utils.ViaStripe "cs_gone"] []
  = [mkSent "payment_queue"
       (mkMessage (Some (JObj
          [("type", JStr "PAYMENT_SUCCESS");
           ("data", JObj [("orderId", JStr "o1");
                          ("paymentId", JStr "pay_P1");
                          ("provider", JStr "razorpay")])])))
       true].
Proof. vm_compute. reflexivity. Qed.

Lemma unpaid_order_expires_settled_order_stays_witness :
  Restaurant.create_order order_id "placed" "u7" [] 1735725600000 ∅ !! order_id
    = Some (Restaurant.mkOrder "u7" [] Restaurant.pending
              (Some (1735725600000 + 900000)%Z) None None None "placed") /\
  ((1735726500001 <= 1735725600000 + 900000)%Z ->
   Restaurant.ttl_sweep 1735726500001
     (Restaurant.create_order order_id "placed" "u7" [] 1735725600000 ∅) !! order_id
   = Some (Restaurant.mkOrder "u7" [] Restaurant.pending
             (Some (1735725600000 + 900000)%Z) None None None "placed")) /\
  ((1735725600000 + 900000 < 1735726500001)%Z ->
   Restaurant.ttl_sweep 1735726500001
     (Restaurant.create_order order_id "placed" "u7" [] 1735725600000 ∅) !! order_id
   = None) /\
  Restaurant.ttl_sweep 1735726500001
    (Restaurant.orders
       (Restaurant.payment_success hex24 order_id
          (Restaurant.create_order order_id "placed" "u7" [] 1735725600000 ∅)))
    !! order_id
  = Some (Restaurant.mkOrder "u7" [] Restaurant.paid None None None None "placed").
Proof.
  destruct (unpaid_order_expires_settled_order_stays hex24 order_id "placed" "u7" []
              1735725600000 1735726500001 ∅) as (Hnew & Hkept & Hgone & Hpaid & _).
  split; [exact Hnew|]. split; [exact Hkept|]. split; [exact Hgone|].
  apply Hpaid. vm_compute. reflexivity.
Defined.

Lemma naive_handler_double_assigns_witness :
  Restaurant.naive_interleaved
      (Restaurant.assign_body (accept_by "riderA" "Asha"))
      (Restaurant.assign_body (accept_by "riderB" "Bala"))
      {["o1" := ready_order]}
    = Some (<["o1" := Restaurant.with_riderId (Some "riderB") ready_order]>
              {["o1" := ready_order]},
            Restaurant.Success, Restaurant.Success)
  /\ Restaurant.naive_sequential
      (Restaurant.assign_body (accept_by "riderA" "Asha"))
      (Restaurant.assign_body (accept_by "riderB" "Bala"))
      {["o1" := ready_order]}
    = Some (<["o1" := Restaurant.with_riderId (Some "riderA") ready_order]>
              {["o1" := ready_order]},
            Restaurant.Success, Restaurant.Error 400 "Order already assigned").
Proof.
  apply (naive_handler_double_assigns
           (Restaurant.assign_body (accept_by "riderA" "Asha"))
           (Restaurant.assign_body (accept_by "riderB" "Bala"))
           {["o1" := ready_order]} ready_order "riderA" "riderB").
  - reflexivity.
  - reflexivity.
  - reflexivity.
  - reflexivity.
  - reflexivity.
  - discriminate.
Defined.
